(** * Redaction download: a shallow embedding of
      [frontend_dev_assessment/apps/redaction/views.py]

    The view [document_download_redacted] opens the PDF of a document,
    walks over its pages, attaches one black [/Square] annotation per
    stored redaction of that page and writes the pages to a fresh PDF.

    Numbers.  The code computes with Python floats.  The development is
    written over an interface, [Arithmetic], of the operations the code
    uses on them, with two instances: [binary64], the IEEE 754 doubles of
    Python (Rocq's primitive floats, with the [OverflowError] of [float]
    on an integer that is too large), and [exact], the rationals, for the
    statements that are about the formulas without rounding.  What is
    proved in the section holds for every instance; the scenarios are run
    in [binary64].

    Objects.  [reader.pages] is a list of page objects, one per index; the
    loop appends to the object at the current index and nowhere else.

    Libraries.  [pypdf]'s parser and serialiser, Python's parsing of a
    string by [float], [reportlab]'s layout and Django's storage are not
    code of this repository: they are taken as parameters of the
    development. *)

From Stdlib Require Import QArith Lqa.
From Stdlib Require Floats.PrimFloat Floats.SpecFloat Floats.FloatOps.
From stdpp Require Import base option list gmap strings fin_maps pretty.

Open Scope string_scope.

(** ** Exceptions and the error monad *)

Inductive exn : Type :=
| Http404          (* get_object_or_404 *)
| OSError          (* Path(...).open("rb") *)
| PdfReadError     (* PdfReader(f) on bytes that are no PDF *)
| IndexError       (* reader.pages[page_num] past the end *)
| AttributeError   (* coords.get on a value that is no dict *)
| TypeError        (* float(None), float([...]), float({...}) *)
| ValueError       (* float("abc"); document.file.path without a file *)
| OverflowError.   (* float(10**400) *)

Inductive result (A : Type) : Type :=
| Ok (a : A)
| Raise (e : exn).
Arguments Ok {A} a.
Arguments Raise {A} e.

Definition rbind {A B} (r : result A) (k : A → result B) : result B :=
  match r with
  | Ok a => k a
  | Raise e => Raise e
  end.

Notation "x ←! r ; k" := (rbind r (λ x, k))
  (at level 100, r at next level, k at level 200, right associativity,
   format "x  ←!  r ;  '/' k").

Definition is_ok {A} (r : result A) : Prop :=
  match r with Ok _ => True | Raise _ => False end.

Definition fails {A} (r : result A) : Prop :=
  match r with Ok _ => False | Raise _ => True end.

(** ** Python floats *)

(** What the code does with floats: the constants [0.0] and [1.0],
    [+] and [-] (views.py 124, 141), and [float(n)] on an integer, which
    raises [OverflowError] ([None]) when [n] is too large.  [num_leb] is
    the order, used by the model of the viewer, and [int_of_num] gives the
    integer a float is equal to, if there is one, as the database compares
    a stored number with a page number. *)
Class Arithmetic (num : Type) : Type := {
  num_zero : num;
  num_one : num;
  num_add : num → num → num;
  num_sub : num → num → num;
  num_leb : num → num → bool;
  float_of_int : Z → option num;
  int_of_num : num → option Z
}.

Declare Scope num_scope.
Delimit Scope num_scope with num.
Arguments num_add {num _} (_ _)%_num.
Arguments num_sub {num _} (_ _)%_num.
Arguments num_leb {num _} (_ _)%_num.
Infix "+" := num_add : num_scope.
Infix "-" := num_sub : num_scope.

(** The exact instance: rationals, every integer converts. *)
Definition int_of_Q (q : Q) : option Z :=
  if Pos.eqb (Qden (Qred q)) 1 then Some (Qnum (Qred q)) else None.

#[global] Instance exact : Arithmetic Q :=
  {| num_zero := 0%Q;
     num_one := 1%Q;
     num_add := Qplus;
     num_sub := Qminus;
     num_leb := Qle_bool;
     float_of_int := λ z, Some (inject_Z z);
     int_of_num := int_of_Q |}.

(** The binary64 instance.  [b64 z] is the double nearest to the integer
    [z], ties to even, as [float(z)] computes it; it is infinite when [z]
    is too large, where Python raises [OverflowError]. *)
Definition b64 (z : Z) : PrimFloat.float :=
  FloatOps.SF2Prim
    (SpecFloat.binary_normalize FloatOps.prec FloatOps.emax z 0 false).

Definition float_of_int64 (z : Z) : option PrimFloat.float :=
  if PrimFloat.is_infinity (b64 z) then None else Some (b64 z).

Definition int_of_binary64 (f : PrimFloat.float) : option Z :=
  match FloatOps.Prim2SF f with
  | SpecFloat.S754_zero _ => Some 0%Z
  | SpecFloat.S754_finite s m e =>
      let sign := if s then (-1)%Z else 1%Z in
      if (0 <=? e)%Z then Some (sign * (Z.pos m * 2 ^ e))%Z
      else if (Z.pos m mod 2 ^ (- e) =? 0)%Z
           then Some (sign * (Z.pos m / 2 ^ (- e)))%Z
           else None
  | _ => None
  end.

(** The rational a finite double stands for. *)
Definition Q_of_binary64 (f : PrimFloat.float) : option Q :=
  match FloatOps.Prim2SF f with
  | SpecFloat.S754_zero _ => Some 0%Q
  | SpecFloat.S754_finite s m e =>
      let sign := if s then (-1)%Z else 1%Z in
      if (0 <=? e)%Z then Some (inject_Z (sign * (Z.pos m * 2 ^ e)))
      else Some (Qmake (sign * Z.pos m) (Z.to_pos (2 ^ (- e))))
  | _ => None
  end.

#[global] Instance binary64 : Arithmetic PrimFloat.float :=
  {| num_zero := b64 0;
     num_one := b64 1;
     num_add := PrimFloat.add;
     num_sub := PrimFloat.sub;
     num_leb := PrimFloat.leb;
     float_of_int := float_of_int64;
     int_of_num := int_of_binary64 |}.

(** The double nearest to the decimal [n / d], as [json.loads] reads it,
    for [n] below [2^53] and [d] a power of ten up to [10^22]: both
    integers are doubles and the division rounds once. *)
Definition decimal64 (n d : Z) : PrimFloat.float :=
  PrimFloat.div (b64 n) (b64 d).

(** ** The stored records (models.py) and the PDF objects *)

Record Document : Type := mkDocument {
  title : string;
  file_path : string
}.

Record FileResponse : Type := mkFileResponse {
  body : string;
  content_type : string;
  as_attachment : bool;
  filename : string
}.

Section Objects.

Context {num : Type}.

(** A number as [json.loads] gives it: a Python [int] or a Python
    [float]. *)
Inductive pynumber : Type :=
| PyInt (z : Z)
| PyFloat (f : num).

(** JSON values, as stored in [Redaction.coordinates] (a JSONField). *)
Local Unset Elimination Schemes.
Inductive json : Type :=
| JNull
| JBool (b : bool)
| JNum (n : pynumber)
| JStr (s : string)
| JArr (l : list json)
| JObj (m : gmap string json).
Local Set Elimination Schemes.

(** [/Rect]: lower-left corner, then upper-right corner. *)
Record Rect : Type := mkRect { x0 : num; y0 : num; x1 : num; y1 : num }.

(** The annotation dictionary of lines 135-153.  [BS_W] is the [/W] entry
    of the [/BS] sub-dictionary. *)
Record Annotation : Type := mkAnnotation {
  Type_ : string;
  Subtype : string;
  Rect_ : Rect;
  C : list num;
  IC : list num;
  BS_W : num
}.

(** A page: the height of its media box, its content stream, and its
    [/Annots] entry ([None] when the key is not in the page). *)
Record Page : Type := mkPage {
  mediabox_height : num;
  Contents : string;
  Annots : option (list Annotation)
}.

Record Redaction : Type := mkRedaction {
  document : Z;
  redaction_type : string;
  coordinates : json
}.

(** The database and the file system. *)
Record World : Type := mkWorld {
  Document_objects : gmap Z Document;      (* primary key ↦ row *)
  Redaction_objects : list Redaction;      (* rows, in [Meta.ordering] *)
  files : gmap string string               (* path ↦ bytes on disk *)
}.

End Objects.

Arguments pynumber : clear implicits.
Arguments json : clear implicits.
Arguments Rect : clear implicits.
Arguments Annotation : clear implicits.
Arguments Page : clear implicits.
Arguments Redaction : clear implicits.
Arguments World : clear implicits.
Arguments JNull {num}.
Arguments mkRect {num} (x0 y0 x1 y1)%_num.

(** ** Scenarios of the specification, in binary64 *)

(** A rectangle with integer corners. *)
Definition rect64 (a b c d : Z) : Rect PrimFloat.float :=
  mkRect (b64 a) (b64 b) (b64 c) (b64 d).

(** Scenario A: one page of height 792pt, one redaction. *)
Definition page_792 : Page PrimFloat.float :=
  mkPage (b64 792) "BT (confidential) Tj ET" None.

Definition map_A : gmap string (json PrimFloat.float) :=
  list_to_map [("x", JNum (PyInt 100)); ("y", JNum (PyInt 200));
               ("width", JNum (PyInt 150)); ("height", JNum (PyInt 20));
               ("page", JNum (PyInt 1))].

Definition redaction_A : Redaction PrimFloat.float :=
  mkRedaction 1 "area" (JObj map_A).

(** Scenario B: a redaction of page 5 against three pages. *)
Definition map_B : gmap string (json PrimFloat.float) :=
  list_to_map [("x", JNum (PyInt 100)); ("y", JNum (PyInt 200));
               ("width", JNum (PyInt 150)); ("height", JNum (PyInt 20));
               ("page", JNum (PyInt 5))].

Definition redaction_B : Redaction PrimFloat.float :=
  mkRedaction 1 "area" (JObj map_B).

Definition three_pages : list (Page PrimFloat.float) :=
  [page_792; page_792; page_792].

(** Scenario C: a redaction of width 0. *)
Definition map_C : gmap string (json PrimFloat.float) :=
  list_to_map [("x", JNum (PyInt 100)); ("y", JNum (PyInt 200));
               ("width", JNum (PyInt 0)); ("height", JNum (PyInt 20));
               ("page", JNum (PyInt 1))].

Definition redaction_C : Redaction PrimFloat.float :=
  mkRedaction 1 "area" (JObj map_C).

(** A redaction that stores its page and its corner only. *)
Definition map_corner : gmap string (json PrimFloat.float) :=
  list_to_map [("x", JNum (PyInt 100)); ("y", JNum (PyInt 200));
               ("page", JNum (PyInt 1))].

Definition redaction_corner : Redaction PrimFloat.float :=
  mkRedaction 1 "area" (JObj map_corner).






(** A redaction with decimal coordinates, [{x: 100, y: 0.07, width: 150,
    height: 32.19, page: 1}], and an A4 page of height 841.89pt with a
    redaction [{x: 100, y: 0, width: 150, height: 32.19, page: 1}] at its
    top edge. *)
Definition map_decimal : gmap string (json PrimFloat.float) :=
  list_to_map [("x", JNum (PyInt 100));
               ("y", JNum (PyFloat (decimal64 7 100)));
               ("width", JNum (PyInt 150));
               ("height", JNum (PyFloat (decimal64 3219 100)));
               ("page", JNum (PyInt 1))].

Definition redaction_decimal : Redaction PrimFloat.float :=
  mkRedaction 1 "area" (JObj map_decimal).




(** Redactions whose [x] is an integer no double holds ([2^53 + 1]) and
    an integer too large for a double ([10^400]). *)
Definition map_odd : gmap string (json PrimFloat.float) :=
  list_to_map [("x", JNum (PyInt (2 ^ 53 + 1))); ("y", JNum (PyInt 200));
               ("width", JNum (PyInt 150)); ("height", JNum (PyInt 20));
               ("page", JNum (PyInt 1))].

Definition redaction_odd : Redaction PrimFloat.float :=
  mkRedaction 1 "area" (JObj map_odd).

Definition map_huge : gmap string (json PrimFloat.float) :=
  list_to_map [("x", JNum (PyInt (10 ^ 400))); ("y", JNum (PyInt 200));
               ("width", JNum (PyInt 150)); ("height", JNum (PyInt 20));
               ("page", JNum (PyInt 1))].

Definition redaction_huge : Redaction PrimFloat.float :=
  mkRedaction 1 "area" (JObj map_huge).

(** A [float] that accepts no string at all (the scenarios store numbers
    only), a reader that knows one file, and a writer that keeps the
    content streams: instances for the scenarios. *)
Definition no_str_float {num : Type} : string → option num := λ _, None.

Definition one_file_reader : string → option (list (Page PrimFloat.float)) :=
  λ bytes, if String.eqb bytes "%PDF-1.7 A" then Some [page_792] else None.

Definition contents_writer {num : Type} : list (Page num) → string :=
  λ pages, String.concat "|" (map Contents pages).

(** A redaction of page 1 whose [x] is the JSON [null]. *)
Definition map_null_x : gmap string (json PrimFloat.float) :=
  list_to_map [("x", JNull); ("y", JNum (PyInt 200));
               ("width", JNum (PyInt 150)); ("height", JNum (PyInt 20));
               ("page", JNum (PyInt 1))].

Definition redaction_null_x : Redaction PrimFloat.float :=
  mkRedaction 1 "area" (JObj map_null_x).

(** A redaction of document 2. *)
Definition redaction_other : Redaction PrimFloat.float :=
  mkRedaction 2 "text" (JObj map_A).

(** A page that already carries a link annotation. *)
Definition link_annotation : Annotation PrimFloat.float :=
  {| Type_ := "/Annot"; Subtype := "/Link";
     Rect_ := mkRect (b64 72) (b64 700) (b64 200) (b64 712);
     C := []; IC := []; BS_W := b64 1 |}.

Definition page_with_link : Page PrimFloat.float :=
  mkPage (b64 792) "BT (see appendix) Tj ET" (Some [link_annotation]).

(** A redaction whose coordinates are the empty object. *)
Definition redaction_empty : Redaction PrimFloat.float :=
  mkRedaction 1 "area" (JObj ∅).

(** Instances of Python's [str] on numbers and containers, for the
    examples. *)
Definition number_sign {num : Type} : pynumber num → string := λ _, "#".
Definition container_sign {num : Type} : json num → string :=
  λ _, "[...]".

(** The world of scenario A: one document, its file, its redaction. *)
Definition world_A : World PrimFloat.float :=
  {| Document_objects :=
       {[ 1%Z := mkDocument "Report" "documents/report.pdf" ]};
     Redaction_objects := [redaction_A];
     files := {[ "documents/report.pdf" := "%PDF-1.7 A" ]} |}.

(** The world of scenario A with a redaction of another document stored
    after the first. *)
Definition world_two : World PrimFloat.float :=
  {| Document_objects := Document_objects world_A;
     Redaction_objects := [redaction_A; redaction_other];
     files := files world_A |}.

Section Download.

Context {num : Type} {A : Arithmetic num}.

(** In this section the objects are those over [num]. *)
Local Abbreviation pynumber := (pynumber num).
Local Abbreviation json := (json num).
Local Abbreviation Rect := (Rect num).
Local Abbreviation Annotation := (Annotation num).
Local Abbreviation Page := (Page num).
Local Abbreviation Redaction := (Redaction num).
Local Abbreviation World := (World num).

(** Python's [float(s)] on a string: the parsed number, or [None] where
    Python raises [ValueError]. *)
Variable float_of_str : string → option num.

(** ** Lines 123-126: [float(coords.get(key, 0))] *)

(** [coords.get(key, default)]; a JSON value that is no object has no
    [get]. *)
Definition get (coords : json) (key : string) (default : json) : result json :=
  match coords with
  | JObj m =>
      match m !! key with
      | Some v => Ok v
      | None => Ok default
      end
  | _ => Raise AttributeError
  end.

Definition float (v : json) : result num :=
  match v with
  | JNum (PyInt z) =>
      match float_of_int z with
      | Some f => Ok f
      | None => Raise OverflowError
      end
  | JNum (PyFloat f) => Ok f
  | JBool b => Ok (if b then num_one else num_zero)
  | JStr s =>
      match float_of_str s with
      | Some f => Ok f
      | None => Raise ValueError
      end
  | JNull | JArr _ | JObj _ => Raise TypeError
  end.

(** The default [0] is the Python integer. *)
Definition float_get (coords : json) (key : string) : result num :=
  v ←! get coords key (JNum (PyInt 0)); float v.

(** ** Lines 116-153: the annotation of one redaction on one page *)

Definition redaction_annotation (page : Page) (redaction : Redaction)
  : result Annotation :=
  let coords := coordinates redaction in
  let page_height := mediabox_height page in
  x ←! float_get coords "x";
  cy ←! float_get coords "y";
  ch ←! float_get coords "height";
  let y := (page_height - cy - ch)%num in
  width ←! float_get coords "width";
  height ←! float_get coords "height";
  Ok {| Type_ := "/Annot";
        Subtype := "/Square";
        Rect_ := mkRect x y (x + width)%num (y + height)%num;
        C := [num_zero; num_zero; num_zero];
        IC := [num_zero; num_zero; num_zero];
        BS_W := num_zero |}.

(** Lines 155-157: create [/Annots] when the page has none, then append. *)
Definition append_annotation (page : Page) (a : Annotation) : Page :=
  {| mediabox_height := mediabox_height page;
     Contents := Contents page;
     Annots := Some (default [] (Annots page) ++ [a])%list |}.

(** ** Lines 115-157: the inner loop, [for redaction in page_redactions].
    The page object is updated in place; the loop variable [page] is the
    page as the previous iterations left it. *)
Fixpoint apply_redactions (page : Page) (page_redactions : list Redaction)
  : result Page :=
  match page_redactions with
  | [] => Ok page
  | redaction :: rest =>
      a ←! redaction_annotation page redaction;
      apply_redactions (append_annotation page a) rest
  end.

(** ** Line 112: [redactions.filter(coordinates__page=page_num + 1)].
    The ORM's key lookup on the JSON column selects the rows whose
    [coordinates] is an object with a key ["page"] holding that number,
    stored as an integer or as a float equal to it; the queryset's order
    (models.py, [Meta.ordering]) is kept. *)
Definition coordinates__page (n : nat) (redaction : Redaction) : bool :=
  match coordinates redaction with
  | JObj m =>
      match m !! "page" with
      | Some (JNum (PyInt z)) => Z.eqb z (Z.of_nat n)
      | Some (JNum (PyFloat f)) =>
          match int_of_num f with
          | Some z => Z.eqb z (Z.of_nat n)
          | None => false
          end
      | _ => false
      end
  | _ => false
  end.

Definition redactions_filter (redactions : list Redaction) (n : nat)
  : list Redaction :=
  List.filter (coordinates__page n) redactions.

(** ** Lines 108-159: the outer loop, [for page_num in range(len(reader.pages))].
    [reader] is the list of page objects held by the [PdfReader]: the
    annotations are appended to those very objects (the store at index
    [page_num] changes), and [writer.add_page] puts the page, as it then
    is, at the end of the writer's pages. *)
Fixpoint process_pages (redactions : list Redaction) (page_nums : list nat)
    (reader writer : list Page) : result (list Page * list Page) :=
  match page_nums with
  | [] => Ok (reader, writer)
  | page_num :: rest =>
      match reader !! page_num with
      | None => Raise IndexError
      | Some page =>
          let page_redactions := redactions_filter redactions (page_num + 1) in
          page' ←! apply_redactions page page_redactions;
          process_pages redactions rest
            (<[page_num := page']> reader) (writer ++ [page'])%list
      end
  end.

(** The pages handed to [writer.write]. *)
Definition burn (reader : list Page) (redactions : list Redaction)
  : result (list Page) :=
  st ←! process_pages redactions (seq 0 (length reader)) reader [];
  Ok (snd st).

(** ** The view (lines 94-169) over the database and the file system *)

(** State and exceptions: a computation takes the world and returns its
    outcome with the world it leaves behind. *)
Definition M (A : Type) : Type := World → result A * World.

Definition mret {A} (a : A) : M A := λ w, (Ok a, w).

Definition mbind {A B} (c : M A) (k : A → M B) : M B :=
  λ w, match c w with
       | (Ok a, w') => k a w'
       | (Raise e, w') => (Raise e, w')
       end.

Definition lift {A} (r : result A) : M A := λ w, (r, w).

Notation "x ←$ c ; k" := (mbind c (λ x, k))
  (at level 100, c at next level, k at level 200, right associativity,
   format "x  ←$  c ;  '/' k").

Definition get_object_or_404 (pk : Z) : M Document :=
  λ w, (match Document_objects w !! pk with
        | Some d => Ok d
        | None => Raise Http404
        end, w).

(** [document.redactions.all()]: the redactions whose foreign key is the
    document. *)
Definition redactions_all (pk : Z) : M (list Redaction) :=
  λ w, (Ok (List.filter (λ r, Z.eqb (document r) pk) (Redaction_objects w)), w).

(** [Path(document.file.path).open("rb")] and reading it: the mode is
    read-only.  Without a file at the path, [open] raises [OSError]; when
    the file field is empty (no file lives at the empty path),
    [document.file.path] has already raised [ValueError]. *)
Definition open_rb (path : string) : M string :=
  λ w, (match files w !! path with
        | Some bytes => Ok bytes
        | None =>
            if String.eqb path EmptyString then Raise ValueError
            else Raise OSError
        end, w).

(** [pypdf]: the pages of a parsed PDF ([None] when the bytes are no PDF)
    and the bytes written for a list of pages. *)
Variable PdfReader : string → option (list Page).
Variable PdfWriter_write : list Page → string.

Definition document_download_redacted (document_id : Z) : M FileResponse :=
  document ←$ get_object_or_404 document_id;
  redactions ←$ redactions_all document_id;
  f ←$ open_rb (file_path document);
  reader ←$ lift (match PdfReader f with
                  | Some pages => Ok pages
                  | None => Raise PdfReadError
                  end);
  pages ←$ lift (burn reader redactions);
  mret {| body := PdfWriter_write pages;
          content_type := "application/pdf";
          as_attachment := true;
          filename := title document ++ "_redacted.pdf" |}.

(** ** Closed forms of the two loops (used by the proofs only) *)

(** The annotations the inner loop builds for a page, in order. *)
Fixpoint square_annotations (page : Page) (rs : list Redaction)
  : result (list Annotation) :=
  match rs with
  | [] => Ok []
  | r :: rest =>
      a ←! redaction_annotation page r;
      anns ←! square_annotations page rest;
      Ok (a :: anns)
  end.

(** The page after the annotations [anns] were appended to it; with no
    annotation the page is not touched (no [/Annots] key is created). *)
Definition with_annotations (page : Page) (anns : list Annotation) : Page :=
  match anns with
  | [] => page
  | _ => {| mediabox_height := mediabox_height page;
            Contents := Contents page;
            Annots := Some (default [] (Annots page) ++ anns)%list |}
  end.

(** The pages from index [k] on, each with the redactions of its page
    number [k + 1], [k + 2], ... *)
Fixpoint burn_pages (rs : list Redaction) (k : nat) (pages : list Page)
  : result (list Page) :=
  match pages with
  | [] => Ok []
  | p :: ps =>
      p' ←! apply_redactions p (redactions_filter rs (k + 1));
      ps' ←! burn_pages rs (S k) ps;
      Ok (p' :: ps')
  end.

(** A redaction whose four coordinates [float] accepts (a missing key
    counts: its default is the number 0). *)
Definition convertible (r : Redaction) : Prop :=
  is_ok (float_get (coordinates r) "x") ∧
  is_ok (float_get (coordinates r) "y") ∧
  is_ok (float_get (coordinates r) "height") ∧
  is_ok (float_get (coordinates r) "width").

(** The black square of lines 135-153 with the given [/Rect]. *)
Definition black_square (r : Rect) : Annotation :=
  {| Type_ := "/Annot"; Subtype := "/Square"; Rect_ := r;
     C := [num_zero; num_zero; num_zero];
     IC := [num_zero; num_zero; num_zero];
     BS_W := num_zero |}.

(** Removing the [/Annots] entry of a page, as a tool that strips
    annotations does. *)
Definition strip_annotations (page : Page) : Page :=
  {| mediabox_height := mediabox_height page;
     Contents := Contents page;
     Annots := None |}.

(** ** What a viewer shows *)

(** Modelled from the spec: what is visible at a point of a page.  The
    viewer is not part of the repository; the specification has each mark
    independently opaque, a later mark painting over what is below it.
    [Underlying] stands for the page's own content showing through. *)
Inductive colour : Type :=
| Underlying
| Painted (c : list num).

(** Modelled from the spec: the point [(px, py)] lies in the [/Rect] of
    the annotation. *)
Definition covers (a : Annotation) (px py : num) : bool :=
  num_leb (x0 (Rect_ a)) px && num_leb px (x1 (Rect_ a)) &&
  num_leb (y0 (Rect_ a)) py && num_leb py (y1 (Rect_ a)).

(** Modelled from the spec: an annotation paints its interior colour over
    what was shown at the points it covers. *)
Definition paint (px py : num) (shown : colour) (a : Annotation) : colour :=
  if covers a px py then Painted (IC a) else shown.

(** Modelled from the spec: the annotations of a page are painted in
    their order in [/Annots], over the page's content. *)
Definition shown_at (page : Page) (px py : num) : colour :=
  fold_left (paint px py) (default [] (Annots page)) Underlying.

(** ** The detail view ([document_detail], lines 29-44) *)

(** The context handed to the template [redaction/document_detail.html]:
    the document and its redactions.  The template is not part of the
    sources; the context is what the view computes. *)
Definition document_detail (pk : Z) : M (Document * list Redaction) :=
  document ←$ get_object_or_404 pk;
  redactions ←$ redactions_all pk;
  mret (document, redactions).

(** ** The creation endpoint ([redaction_create], lines 47-91) *)

(** What the database answers to an insert it refuses. *)
Inductive db_exn : Type := IntegrityError.

(** [Redaction.objects.create(document=..., redaction_type=..., coordinates=...)].
    In models.py neither [redaction_type] nor [coordinates] has
    [null=True]: Python's [None] is sent as NULL and the insert is refused.
    ([save] does not check [choices] or [max_length].) *)
Definition Redaction_objects_create (document : Z)
    (redaction_type : option string) (coordinates : option json)
  : World → (db_exn + Redaction) * World :=
  λ w, match redaction_type, coordinates with
       | Some t, Some c =>
           let r := mkRedaction document t c in
           (inr r, {| Document_objects := Document_objects w;
                      Redaction_objects := (Redaction_objects w ++ [r])%list;
                      files := files w |})
       | _, _ => (inl IntegrityError, w)
       end.

(** The response of [require_http_methods] to a method it does not list. *)
Inductive HttpResponseNotAllowed : Type :=
| NotAllowed (permitted_methods : list string).

(** The view under its decorators.  [None] is Python's [None], which the
    function returns when it falls off its end.  In the handler,
    [raise HttpResponseBadRequest() from e] raises a response, which is no
    exception: Python raises [TypeError] in its place. *)
Definition redaction_create (method : string) (document_id : Z)
  : M (option HttpResponseNotAllowed) :=
  if decide (method ∈ ["POST"]) then
    document ←$ get_object_or_404 document_id;
    let redaction_type := None in
    let coordinates := None in
    λ w, match Redaction_objects_create document_id redaction_type
                 coordinates w with
         | (inr redaction, w') => (Ok None, w')
         | (inl e, w') => (Raise TypeError, w')
         end
  else mret (Some (NotAllowed ["POST"])).

(** ** The display methods of [Redaction] (models.py, lines 43-51) *)

Definition REDACTION_TYPE_CHOICES : list (string * string) :=
  [("text", "Text Selection"); ("area", "Area Drawing")].

Fixpoint choice_label (choices : list (string * string)) (value : string)
  : option string :=
  match choices with
  | [] => None
  | (v, label) :: rest =>
      if String.eqb v value then Some label else choice_label rest value
  end.

(** [get_redaction_type_display], the method Django derives from
    [choices]: the label of the stored value, or the value itself when
    no choice has it. *)
Definition get_redaction_type_display (r : Redaction) : string :=
  match choice_label REDACTION_TYPE_CHOICES (redaction_type r) with
  | Some label => label
  | None => redaction_type r
  end.

(** Python's [str] of a stored number, and of a stored list or dict. *)
Variable str_of_number : pynumber → string.
Variable str_of_container : json → string.

Definition str (v : json) : string :=
  match v with
  | JNull => "None"
  | JBool true => "True"
  | JBool false => "False"
  | JNum n => str_of_number n
  | JStr s => s
  | JArr _ | JObj _ => str_of_container v
  end.

(** [{coords.get(key, default)}] inside an f-string, [default] being
    given as it prints. *)
Definition get_str (coords : json) (key : string) (default : string)
  : result string :=
  match coords with
  | JObj m =>
      match m !! key with
      | Some v => Ok (str v)
      | None => Ok default
      end
  | _ => Raise AttributeError
  end.

(** [Redaction.__str__]; [doc] is [self.document]. *)
Definition Redaction__str__ (doc : Document) (r : Redaction) : result string :=
  let display := get_redaction_type_display r in
  page ←! get_str (coordinates r) "page" "N/A";
  Ok (display ++ " on " ++ title doc ++ " (Page " ++ page ++ ")").

Definition get_coordinates_display (r : Redaction) : result string :=
  let coords := coordinates r in
  page ←! get_str coords "page" "?";
  x ←! get_str coords "x" "0";
  y ←! get_str coords "y" "0";
  width ←! get_str coords "width" "0";
  height ←! get_str coords "height" "0";
  Ok ("Page " ++ page ++ ": (" ++ x ++ ", " ++ y ++ ") - "
      ++ width ++ "x" ++ height).

(** ** The seed command ([seed_documents.py]) *)

(** *** [create_pdf] (lines 73-138) *)

(** The arguments the code gives to [ParagraphStyle]; [None] where it
    gives none and the parent's value applies. *)
Record ParagraphStyle : Type := mkParagraphStyle {
  style_name : string;
  parent : string;
  fontSize : Q;
  textColor : option string;
  spaceAfter : Q;
  spaceBefore : option Q;
  alignment : option string
}.

Definition title_style : ParagraphStyle :=
  mkParagraphStyle "CustomTitle" "Heading1" 24 (Some "#000000") 30 None
    (Some "TA_CENTER").

Definition heading_style : ParagraphStyle :=
  mkParagraphStyle "CustomHeading" "Heading2" 14 (Some "#000000") 12
    (Some 12%Q) None.

Definition body_style : ParagraphStyle :=
  mkParagraphStyle "CustomBody" "BodyText" 11 None 12 None (Some "TA_JUSTIFY").

(** The flowables the code builds. *)
Inductive Flowable : Type :=
| Paragraph (text : string) (style : ParagraphStyle)
| Spacer (width height : Q)
| PageBreak.

(** [reportlab.lib.units.inch] *)
Definition inch : Q := 72.

(** A subscript [d[key]] either finds its value or raises [KeyError]. *)
Inductive keyed (A : Type) : Type :=
| Found (a : A)
| KeyError (key : string).
Arguments Found {A} a.
Arguments KeyError {A} key.

Definition kbind {A B} (r : keyed A) (k : A → keyed B) : keyed B :=
  match r with
  | Found a => k a
  | KeyError key => KeyError key
  end.

Notation "x ←? r ; k" := (kbind r (λ x, k))
  (at level 100, r at next level, k at level 200, right associativity,
   format "x  ←?  r ;  '/' k").

(** [section[key]] *)
Definition item (section : gmap string string) (key : string) : keyed string :=
  match section !! key with
  | Some v => Found v
  | None => KeyError key
  end.

(** Lines 121-129: [for section in content], appending to [elements].
    [Paragraph(text, style)] is taken as a constructor.  reportlab parses
    the markup of [text] there and raises [ValueError] on markup it
    rejects; this parser is not modelled, the texts of the command being
    plain but for well-formed [<br/>] tags.  What is proved of
    [create_pdf] below is about the keys of the sections. *)
Fixpoint add_content (elements : list Flowable)
    (content : list (gmap string string)) : keyed (list Flowable) :=
  match content with
  | [] => Found elements
  | section :: rest =>
      type ←? item section "type";
      if String.eqb type "heading" then
        text ←? item section "text";
        add_content (elements ++ [Paragraph text heading_style])%list rest
      else if String.eqb type "paragraph" then
        text ←? item section "text";
        add_content (elements ++ [Paragraph text body_style])%list rest
      else if String.eqb type "space" then
        add_content (elements ++ [Spacer 1 (0.2 * inch)])%list rest
      else if String.eqb type "pagebreak" then
        add_content (elements ++ [PageBreak])%list rest
      else
        add_content elements rest
  end.

(** Lines 116-129: the flowables of a document. *)
Definition flowables (title : string) (content : list (gmap string string))
  : keyed (list Flowable) :=
  add_content [Paragraph title title_style; Spacer 1 (0.2 * inch)] content.

(** [SimpleDocTemplate(buffer, pagesize=letter, rightMargin=72,
    leftMargin=72, topMargin=72, bottomMargin=18).build(elements)] and
    [buffer.getvalue()]: reportlab's layout, a parameter. *)
Variable SimpleDocTemplate_build : list Flowable → string.

Definition create_pdf (title : string) (content : list (gmap string string))
  : keyed string :=
  elements ←? flowables title content;
  Found (SimpleDocTemplate_build elements).

(** What one section adds when nothing is missing from it. *)
Definition section_flowables (section : gmap string string) : list Flowable :=
  match section !! "type", section !! "text" with
  | Some type, text =>
      if String.eqb type "heading" then
        match text with Some t => [Paragraph t heading_style] | None => [] end
      else if String.eqb type "paragraph" then
        match text with Some t => [Paragraph t body_style] | None => [] end
      else if String.eqb type "space" then [Spacer 1 (0.2 * inch)]
      else if String.eqb type "pagebreak" then [PageBreak]
      else []
  | None, _ => []
  end.

(** A section that raises no [KeyError]: it has a [type], and a [text]
    when its type is [heading] or [paragraph]. *)
Definition complete (section : gmap string string) : Prop :=
  ∃ type, section !! "type" = Some type ∧
          (type = "heading" ∨ type = "paragraph" → is_Some (section !! "text")).

Definition is_PageBreak (f : Flowable) : bool :=
  match f with PageBreak => true | _ => false end.

(** *** The sample contents (lines 140-369) *)

(** The double quote and the line feed, as strings. *)
Definition dq : string := String (Ascii.ascii_of_nat 34) EmptyString.
Definition lf : string := String (Ascii.ascii_of_nat 10) EmptyString.

(** The two shapes of dict literal the contents use:
    [{"type": t}] and [{"type": t, "text": s}]. *)
Definition dict_type (type : string) : gmap string string :=
  {[ "type" := type ]}.

Definition dict_type_text (type text : string) : gmap string string :=
  <[ "text" := text ]> {[ "type" := type ]}.

(** [get_employment_contract_content] (lines 140-213) *)
Definition get_employment_contract_content : list (gmap string string) :=
  [
    dict_type_text "heading"
      ("EMPLOYMENT AGREEMENT");
    dict_type "space";
    dict_type_text "paragraph"
      ("This Employment Agreement (the "
       ++ dq
       ++ "Agreement"
       ++ dq
       ++ ") is entered into as of January 15, 2024, by and between "
       ++ "TechCorp Industries, Inc., a Delaware corporation (the "
       ++ dq
       ++ "Company"
       ++ dq
       ++ "), and Jane Smith, an individual residing at 123 Main "
       ++ "Street, San Francisco, CA 94102 (the "
       ++ dq
       ++ "Employee"
       ++ dq
       ++ ").");
    dict_type "space";
    dict_type_text "heading"
      ("1. POSITION AND DUTIES");
    dict_type_text "paragraph"
      ("The Company hereby employs the Employee, and the Employee "
       ++ "hereby accepts employment with the Company, as Senior "
       ++ "Software Engineer. The Employee shall report to the Chief "
       ++ "Technology Officer and shall perform such duties as are "
       ++ "customarily associated with such position, including but "
       ++ "not limited to software development, code review, and "
       ++ "technical mentoring.");
    dict_type_text "paragraph"
      ("The Employee agrees to devote their full business time, "
       ++ "attention, and energies to the business of the Company "
       ++ "and to perform their duties in a professional, ethical, "
       ++ "and efficient manner.");
    dict_type "space";
    dict_type_text "heading"
      ("2. COMPENSATION");
    dict_type_text "paragraph"
      ("As compensation for services rendered, the Company shall "
       ++ "pay the Employee a base salary of $185,000 per annum, "
       ++ "payable in accordance with the Company's standard payroll "
       ++ "practices. The Employee's salary shall be subject to "
       ++ "review annually.");
    dict_type_text "paragraph"
      ("In addition to base salary, the Employee shall be "
       ++ "eligible for an annual performance bonus of up to 20% of "
       ++ "base salary, based on individual and company performance "
       ++ "metrics as determined by the Company in its sole "
       ++ "discretion.");
    dict_type "pagebreak";
    dict_type_text "heading"
      ("3. BENEFITS");
    dict_type_text "paragraph"
      ("The Employee shall be entitled to participate in all "
       ++ "employee benefit plans, practices, and programs "
       ++ "maintained by the Company, including health insurance, "
       ++ "dental insurance, vision insurance, 401(k) retirement "
       ++ "plan, and paid time off, as in effect from time to time, "
       ++ "on a basis commensurate with the Employee's position.");
    dict_type "space";
    dict_type_text "heading"
      ("4. CONFIDENTIALITY AND PROPRIETARY INFORMATION");
    dict_type_text "paragraph"
      ("The Employee acknowledges that during their employment, "
       ++ "they will have access to and become acquainted with "
       ++ "various trade secrets and confidential information "
       ++ "concerning the Company's business, including but not "
       ++ "limited to customer lists, pricing information, software "
       ++ "source code, technical specifications, and business "
       ++ "strategies.");
    dict_type_text "paragraph"
      ("The Employee agrees that they will not, during or after "
       ++ "the term of employment, disclose any such confidential "
       ++ "information to any person or entity, or use such "
       ++ "information for their own benefit or the benefit of any "
       ++ "third party, without the prior written consent of the "
       ++ "Company.");
    dict_type "space";
    dict_type_text "heading"
      ("5. TERMINATION");
    dict_type_text "paragraph"
      ("Either party may terminate this Agreement at any time, "
       ++ "with or without cause, upon providing thirty (30) days "
       ++ "written notice to the other party. Upon termination, the "
       ++ "Employee shall return all Company property and "
       ++ "confidential information in their possession.");
    dict_type "pagebreak";
    dict_type_text "heading"
      ("6. GOVERNING LAW");
    dict_type_text "paragraph"
      ("This Agreement shall be governed by and construed in "
       ++ "accordance with the laws of the State of California, "
       ++ "without regard to its conflict of laws provisions.");
    dict_type "space";
    dict_type_text "paragraph"
      ("IN WITNESS WHEREOF, the parties have executed this "
       ++ "Agreement as of the date first above written.");
    dict_type "space";
    dict_type "space";
    dict_type_text "paragraph"
      ("_________________________<br/>TechCorp Industries, "
       ++ "Inc.<br/>By: John Doe, CEO<br/>Date: January 15, 2024");
    dict_type "space";
    dict_type_text "paragraph"
      ("_________________________<br/>Jane Smith, "
       ++ "Employee<br/>Date: January 15, 2024")
  ].

(** [get_nda_content] (lines 215-287) *)
Definition get_nda_content : list (gmap string string) :=
  [
    dict_type_text "heading"
      ("NON-DISCLOSURE AGREEMENT");
    dict_type "space";
    dict_type_text "paragraph"
      ("This Non-Disclosure Agreement (the "
       ++ dq
       ++ "Agreement"
       ++ dq
       ++ ") is entered into as of March 1, 2024, between Global "
       ++ "Tech Solutions LLC, a California limited liability "
       ++ "company with offices at 456 Innovation Drive, Palo Alto, "
       ++ "CA 94301 (the "
       ++ dq
       ++ "Disclosing Party"
       ++ dq
       ++ "), and Robert Johnson, an individual with an address at "
       ++ "789 Elm Street, Mountain View, CA 94041 (the "
       ++ dq
       ++ "Receiving Party"
       ++ dq
       ++ ").");
    dict_type "space";
    dict_type_text "heading"
      ("RECITALS");
    dict_type_text "paragraph"
      ("WHEREAS, the Disclosing Party possesses certain "
       ++ "confidential and proprietary information relating to its "
       ++ "business, technology, and operations; and");
    dict_type_text "paragraph"
      ("WHEREAS, the Receiving Party desires to receive certain "
       ++ "confidential information from the Disclosing Party for "
       ++ "the purpose of evaluating a potential business "
       ++ "relationship;");
    dict_type_text "paragraph"
      ("NOW, THEREFORE, in consideration of the mutual covenants "
       ++ "and agreements contained herein, the parties agree as "
       ++ "follows:");
    dict_type "space";
    dict_type_text "heading"
      ("1. DEFINITION OF CONFIDENTIAL INFORMATION");
    dict_type_text "paragraph"
      (dq
       ++ "Confidential Information"
       ++ dq
       ++ " means all information, whether written, oral, "
       ++ "electronic, or visual, disclosed by the Disclosing Party "
       ++ "to the Receiving Party, including but not limited to: (a) "
       ++ "technical data, trade secrets, know-how, research, "
       ++ "product plans, products, services, customers, customer "
       ++ "lists, markets, software, developments, inventions, "
       ++ "processes, formulas, technology, designs, drawings, "
       ++ "engineering, hardware configuration information, "
       ++ "marketing, finances, or other business information.");
    dict_type "pagebreak";
    dict_type_text "heading"
      ("2. OBLIGATIONS OF RECEIVING PARTY");
    dict_type_text "paragraph"
      ("The Receiving Party agrees to: (a) hold and maintain the "
       ++ "Confidential Information in strictest confidence; (b) not "
       ++ "disclose the Confidential Information to any third "
       ++ "parties without the prior written consent of the "
       ++ "Disclosing Party; (c) not use the Confidential "
       ++ "Information for any purpose except as specifically "
       ++ "contemplated by the parties; and (d) protect the "
       ++ "Confidential Information using the same degree of care it "
       ++ "uses to protect its own confidential information, but in "
       ++ "no event less than reasonable care.");
    dict_type "space";
    dict_type_text "heading"
      ("3. EXCLUSIONS FROM CONFIDENTIAL INFORMATION");
    dict_type_text "paragraph"
      ("Confidential Information shall not include information "
       ++ "that: (a) is or becomes publicly available without breach "
       ++ "of this Agreement; (b) was rightfully in the Receiving "
       ++ "Party's possession prior to disclosure by the Disclosing "
       ++ "Party; (c) is rightfully received by the Receiving Party "
       ++ "from a third party without breach of any confidentiality "
       ++ "obligation; or (d) is independently developed by the "
       ++ "Receiving Party without use of or reference to the "
       ++ "Confidential Information.");
    dict_type "space";
    dict_type_text "heading"
      ("4. TERM AND TERMINATION");
    dict_type_text "paragraph"
      ("This Agreement shall commence on the date first written "
       ++ "above and shall continue for a period of five (5) years. "
       ++ "The obligations of confidentiality shall survive "
       ++ "termination of this Agreement and shall continue for an "
       ++ "additional three (3) years thereafter.");
    dict_type "pagebreak";
    dict_type_text "heading"
      ("5. RETURN OF MATERIALS");
    dict_type_text "paragraph"
      ("Upon termination of this Agreement or upon request by the "
       ++ "Disclosing Party, the Receiving Party shall promptly "
       ++ "return all documents, materials, and other tangible items "
       ++ "containing or representing Confidential Information, and "
       ++ "all copies thereof, or shall certify in writing that all "
       ++ "such materials have been destroyed.");
    dict_type "space";
    dict_type_text "heading"
      ("6. REMEDIES");
    dict_type_text "paragraph"
      ("The Receiving Party acknowledges that unauthorized "
       ++ "disclosure or use of Confidential Information may cause "
       ++ "irreparable harm to the Disclosing Party for which "
       ++ "monetary damages may be inadequate. Accordingly, the "
       ++ "Disclosing Party shall be entitled to seek equitable "
       ++ "relief, including injunction and specific performance, in "
       ++ "addition to all other remedies available at law or in "
       ++ "equity.");
    dict_type "space";
    dict_type_text "paragraph"
      ("IN WITNESS WHEREOF, the parties have executed this "
       ++ "Agreement as of the date first above written.");
    dict_type "space";
    dict_type "space";
    dict_type_text "paragraph"
      ("_________________________<br/>Global Tech Solutions "
       ++ "LLC<br/>By: Sarah Williams, General Counsel<br/>Date: "
       ++ "March 1, 2024");
    dict_type "space";
    dict_type_text "paragraph"
      ("_________________________<br/>Robert Johnson<br/>Date: "
       ++ "March 1, 2024")
  ].

(** [get_settlement_content] (lines 289-369) *)
Definition get_settlement_content : list (gmap string string) :=
  [
    dict_type_text "heading"
      ("SETTLEMENT AND RELEASE AGREEMENT");
    dict_type "space";
    dict_type_text "paragraph"
      ("This Settlement and Release Agreement (the "
       ++ dq
       ++ "Agreement"
       ++ dq
       ++ ") is entered into as of June 15, 2024, by and between "
       ++ "Michael Anderson, an individual residing at 321 Oak "
       ++ "Avenue, Seattle, WA 98101 (the "
       ++ dq
       ++ "Claimant"
       ++ dq
       ++ "), and Acme Corporation, a Washington corporation with "
       ++ "its principal place of business at 555 Business Park "
       ++ "Drive, Bellevue, WA 98004 (the "
       ++ dq
       ++ "Company"
       ++ dq
       ++ ").");
    dict_type "space";
    dict_type_text "heading"
      ("RECITALS");
    dict_type_text "paragraph"
      ("WHEREAS, the Claimant was employed by the Company from "
       ++ "January 2020 through December 2023;");
    dict_type_text "paragraph"
      ("WHEREAS, certain disputes and claims have arisen between "
       ++ "the parties relating to the Claimant's employment and "
       ++ "termination thereof (the "
       ++ dq
       ++ "Disputes"
       ++ dq
       ++ ");");
    dict_type_text "paragraph"
      ("WHEREAS, the parties wish to resolve all Disputes between "
       ++ "them without the necessity of litigation and to avoid the "
       ++ "expense and uncertainty of litigation;");
    dict_type_text "paragraph"
      ("NOW, THEREFORE, in consideration of the mutual promises, "
       ++ "covenants, and agreements set forth herein, the parties "
       ++ "agree as follows:");
    dict_type "space";
    dict_type_text "heading"
      ("1. SETTLEMENT PAYMENT");
    dict_type_text "paragraph"
      ("In full and complete settlement of all claims, the "
       ++ "Company agrees to pay the Claimant the sum of "
       ++ "Seventy-Five Thousand Dollars ($75,000.00) (the "
       ++ dq
       ++ "Settlement Payment"
       ++ dq
       ++ "). The Settlement Payment shall be paid within fifteen "
       ++ "(15) business days of the execution of this Agreement by "
       ++ "both parties.");
    dict_type "pagebreak";
    dict_type_text "heading"
      ("2. GENERAL RELEASE BY CLAIMANT");
    dict_type_text "paragraph"
      ("In consideration of the Settlement Payment and the other "
       ++ "terms of this Agreement, the Claimant, on behalf of "
       ++ "themselves and their heirs, executors, administrators, "
       ++ "successors, and assigns, hereby irrevocably and "
       ++ "unconditionally releases, acquits, and forever discharges "
       ++ "the Company, its officers, directors, employees, agents, "
       ++ "shareholders, parent companies, subsidiaries, affiliates, "
       ++ "predecessors, successors, and assigns from any and all "
       ++ "claims, demands, damages, debts, liabilities, accounts, "
       ++ "obligations, costs, expenses, liens, actions, and causes "
       ++ "of action of every kind and nature whatsoever, whether "
       ++ "known or unknown, suspected or unsuspected, which the "
       ++ "Claimant has or may have against the Company.");
    dict_type_text "paragraph"
      ("This release includes, but is not limited to, claims "
       ++ "arising under federal, state, or local laws prohibiting "
       ++ "employment discrimination, claims for wrongful discharge, "
       ++ "breach of contract, breach of the implied covenant of "
       ++ "good faith and fair dealing, negligence, defamation, "
       ++ "emotional distress, and any other common law or statutory "
       ++ "claims.");
    dict_type "space";
    dict_type_text "heading"
      ("3. NON-ADMISSION");
    dict_type_text "paragraph"
      ("This Agreement is entered into as a compromise and "
       ++ "settlement of disputed claims. Nothing contained herein "
       ++ "shall be construed as an admission by either party of any "
       ++ "liability, wrongdoing, or violation of law. The Company "
       ++ "specifically denies any liability or wrongdoing with "
       ++ "respect to the Claimant's employment or termination.");
    dict_type "pagebreak";
    dict_type_text "heading"
      ("4. CONFIDENTIALITY");
    dict_type_text "paragraph"
      ("The parties agree that the terms and conditions of this "
       ++ "Agreement, including but not limited to the amount of the "
       ++ "Settlement Payment, shall be kept strictly confidential. "
       ++ "Neither party shall disclose the existence or terms of "
       ++ "this Agreement to any third party, except as required by "
       ++ "law or except to their attorneys, accountants, tax "
       ++ "advisors, or immediate family members, who shall also be "
       ++ "bound by this confidentiality provision.");
    dict_type "space";
    dict_type_text "heading"
      ("5. NON-DISPARAGEMENT");
    dict_type_text "paragraph"
      ("The Claimant agrees not to make any disparaging or "
       ++ "negative statements, written or oral, about the Company, "
       ++ "its officers, directors, employees, products, services, "
       ++ "or business practices. The Company agrees to instruct its "
       ++ "officers and directors not to make any disparaging or "
       ++ "negative statements about the Claimant.");
    dict_type "space";
    dict_type_text "heading"
      ("6. GOVERNING LAW");
    dict_type_text "paragraph"
      ("This Agreement shall be governed by and construed in "
       ++ "accordance with the laws of the State of Washington, "
       ++ "without regard to its conflict of laws principles.");
    dict_type "space";
    dict_type_text "paragraph"
      ("IN WITNESS WHEREOF, the parties have executed this "
       ++ "Agreement as of the date first above written.");
    dict_type "space";
    dict_type "space";
    dict_type_text "paragraph"
      ("_________________________<br/>Acme Corporation<br/>By: "
       ++ "David Martinez, Chief Legal Officer<br/>Date: June 15, "
       ++ "2024");
    dict_type "space";
    dict_type_text "paragraph"
      ("_________________________<br/>Michael Anderson<br/>Date: "
       ++ "June 15, 2024")
  ].

(** *** [handle] (lines 31-71) *)

(** One entry of [documents_data]. *)
Record doc_data : Type := mkDocData {
  data_title : string;
  data_content : list (gmap string string);
  data_filename : string
}.

Definition documents_data : list doc_data :=
  [ mkDocData "Employment Contract - Confidential"
      get_employment_contract_content "employment_contract.pdf";
    mkDocData "Non-Disclosure Agreement (NDA)"
      get_nda_content "nda_agreement.pdf";
    mkDocData "Settlement Agreement"
      get_settlement_content "settlement_agreement.pdf" ].

(** Django's side of the command, as parameters: the path at which the
    storage writes a file asked for under a name, given the files on
    disk (the name itself under [MEDIA_ROOT], or a variation of it when
    that is taken); the primary key the database gives a new row; and
    the colouring of a line by [self.style]. *)
Variable storage_path : gmap string string → string → string.
Variable new_pk : gmap Z Document → Z.
Variable style_WARNING : string → string.
Variable style_SUCCESS : string → string.

(** [Document.objects.all().delete()]: every document goes, and with it
    (models.py, [on_delete=models.CASCADE]) every redaction whose
    document goes.  The files of the deleted documents stay on disk. *)
Definition Document_objects_all_delete (w : World) : World :=
  {| Document_objects := ∅;
     Redaction_objects :=
       List.filter
         (λ r, bool_decide (Document_objects w !! document r = None))
         (Redaction_objects w);
     files := files w |}.

(** [document = Document(title=title)] and
    [document.file.save(filename, ContentFile(pdf_content), save=True)];
    the field has [upload_to="documents/"]. *)
Definition Document_file_save (title filename pdf_content : string)
    (w : World) : World :=
  let path := storage_path (files w) ("documents/" ++ filename) in
  {| Document_objects :=
       <[ new_pk (Document_objects w) := mkDocument title path ]>
         (Document_objects w);
     Redaction_objects := Redaction_objects w;
     files := <[ path := pdf_content ]> (files w) |}.

(** Lines 62-69: [for doc_data in documents_data].  The state is the
    world and the lines written to [stdout]; a [KeyError] of
    [create_pdf] ends the command where it stands. *)
Fixpoint seed_loop (data : list doc_data) (w : World) (stdout : list string)
  : keyed unit * World * list string :=
  match data with
  | [] => (Found (), w, stdout)
  | d :: rest =>
      match create_pdf (data_title d) (data_content d) with
      | KeyError key => (KeyError key, w, stdout)
      | Found pdf_content =>
          seed_loop rest
            (Document_file_save (data_title d) (data_filename d)
               pdf_content w)
            (stdout ++
             [style_SUCCESS ("âœ“ Created: " ++ data_title d)])%list
      end
  end.

(** The command.  [documents_dir.mkdir(parents=True, exist_ok=True)]
    makes a directory; the world holds files only and is not changed by
    it. *)
Definition handle (w : World) : keyed unit * World * list string :=
  let stdout := ["Creating sample PDF documents..."] in
  let w := Document_objects_all_delete w in
  let stdout := (stdout ++ [style_WARNING "Deleted existing documents"])%list in
  match seed_loop documents_data w stdout with
  | (Found _, w, stdout) =>
      (Found (), w,
       (stdout ++
        [style_SUCCESS (lf ++ "Successfully created "
                        ++ pretty (length documents_data)
                        ++ " sample documents!")])%list)
  | (KeyError key, w, stdout) => (KeyError key, w, stdout)
  end.

(** [complete], as a test. *)
Definition completeb (section : gmap string string) : bool :=
  match section !! "type" with
  | Some type =>
      if String.eqb type "heading" || String.eqb type "paragraph"
      then bool_decide (is_Some (section !! "text"))
      else true
  | None => false
  end.

(** Instances of the parameters, for the examples: a path longer than
    every path on disk, and a key above every key in the table. *)
Definition longer_path (fs : gmap string string) (name : string) : string :=
  "/media/" ++ name ++
  String.concat EmptyString
    (replicate (S (max_list ((λ kv, String.length kv.1) <$> map_to_list fs)))
       "_").

Definition key_above (docs : gmap Z Document) : Z :=
  Z.of_nat (S (max_list ((λ kv, Z.abs_nat kv.1) <$> map_to_list docs))).

(** Instances for the examples: a build that only counts its flowables,
    and lines left uncoloured. *)
Definition counting_build : list Flowable → string :=
  λ elements, pretty (length elements).

Definition plain_style : string → string := λ line, line.

(** * Lemmas on the loops *)
(** * Lemmas on the loops *)

Lemma is_ok_ex {T} (r : result T) : is_ok r ↔ ∃ a, r = Ok a.
Proof.
  destruct r as [a|e]; simpl; split.
  - eauto.
  - done.
  - done.
  - intros [a Ha]. discriminate.
Qed.

Lemma redaction_annotation_height p q r :
  mediabox_height p = mediabox_height q →
  redaction_annotation p r = redaction_annotation q r.
Proof. intros H. unfold redaction_annotation. by rewrite H. Qed.

Lemma square_annotations_height p q rs :
  mediabox_height p = mediabox_height q →
  square_annotations p rs = square_annotations q rs.
Proof.
  intros H. induction rs as [|r rs IH]; [done|].
  simpl. by rewrite (redaction_annotation_height p q r H), IH.
Qed.

Lemma with_annotations_append p a anns :
  with_annotations (append_annotation p a) anns = with_annotations p (a :: anns).
Proof.
  destruct anns as [|b anns]; [done|].
  unfold with_annotations, append_annotation; simpl.
  by rewrite <- app_assoc.
Qed.

Lemma apply_redactions_eq rs : ∀ p,
  apply_redactions p rs =
  (anns ←! square_annotations p rs; Ok (with_annotations p anns)).
Proof.
  induction rs as [|r rs IH]; intros p; [done|].
  simpl. destruct (redaction_annotation p r) as [a|e]; [|done].
  simpl. rewrite IH.
  rewrite (square_annotations_height (append_annotation p a) p rs eq_refl).
  destruct (square_annotations p rs) as [anns|e]; [|done].
  simpl. by rewrite with_annotations_append.
Qed.

Lemma process_pages_eq rs post : ∀ pre wr,
  process_pages rs (seq (length pre) (length post)) (pre ++ post)%list wr =
  (out ←! burn_pages rs (length pre) post;
   Ok ((pre ++ out)%list, (wr ++ out)%list)).
Proof.
  induction post as [|p post IH]; intros pre wr.
  - simpl. by rewrite !app_nil_r.
  - simpl. rewrite list_lookup_middle by done.
    destruct (apply_redactions p _) as [p'|e]; [|done].
    simpl.
    replace (<[length pre:=p']> (pre ++ p :: post)%list)
      with ((pre ++ [p']) ++ post)%list.
    2:{ rewrite <- app_assoc. simpl.
        rewrite <- (Nat.add_0_r (length pre)).
        by rewrite insert_app_r. }
    replace (S (length pre)) with (length (pre ++ [p'])%list)
      by (rewrite length_app; simpl; lia).
    rewrite IH.
    destruct (burn_pages rs _ post) as [out|e]; [|done].
    simpl. by rewrite <- !app_assoc.
Qed.

Lemma burn_eq pages rs : burn pages rs = burn_pages rs 0 pages.
Proof.
  unfold burn.
  pose proof (process_pages_eq rs pages [] []) as H. simpl in H.
  rewrite H. by destruct (burn_pages rs 0 pages).
Qed.

Lemma square_annotations_Forall2 p rs anns :
  square_annotations p rs = Ok anns ↔
  Forall2 (λ r a, redaction_annotation p r = Ok a) rs anns.
Proof.
  revert anns. induction rs as [|r rs IH]; intros anns; simpl.
  - split.
    + intros [= <-]. constructor.
    + by inversion 1.
  - destruct (redaction_annotation p r) as [a|e] eqn:Ha; simpl.
    + destruct (square_annotations p rs) as [anns'|e] eqn:Hrs; simpl.
      * split.
        -- intros [= <-]. constructor; [done|]. by apply IH.
        -- inversion 1 as [|? b ? l Hb Hl]; subst.
           apply IH in Hl. congruence.
      * split; [done|].
        inversion 1 as [|? b ? l Hb Hl]; subst.
        apply IH in Hl. discriminate.
    + split; [done|].
      inversion 1 as [|? b ? l Hb Hl]; subst. congruence.
Qed.

Lemma redaction_annotation_ok p r :
  convertible r → ∃ a, redaction_annotation p r = Ok a.
Proof.
  intros (Hx & Hy & Hh & Hw).
  apply is_ok_ex in Hx as [x Hx], Hy as [y Hy], Hh as [h Hh], Hw as [w Hw].
  unfold redaction_annotation. rewrite Hx, Hy, Hh, Hw. simpl. eauto.
Qed.

Lemma square_annotations_ok p rs :
  (∀ r, r ∈ rs → convertible r) → ∃ anns, square_annotations p rs = Ok anns.
Proof.
  induction rs as [|r rs IH]; intros Hc; simpl; [eauto|].
  destruct (redaction_annotation_ok p r) as [a ->]; [apply Hc; left|].
  destruct IH as [anns ->]; [intros; apply Hc; by right|].
  simpl. eauto.
Qed.

Lemma elem_of_redactions_filter rs n r :
  r ∈ redactions_filter rs n ↔ r ∈ rs ∧ coordinates__page n r = true.
Proof. unfold redactions_filter. rewrite !list_elem_of_In. apply filter_In. Qed.

Lemma burn_pages_ok rs ps : ∀ k,
  (∀ r i, r ∈ rs → i < length ps →
          coordinates__page (k + i + 1) r = true → convertible r) →
  ∃ out, burn_pages rs k ps = Ok out.
Proof.
  induction ps as [|p ps IH]; intros k Hc; simpl; [eauto|].
  rewrite apply_redactions_eq.
  destruct (square_annotations_ok p (redactions_filter rs (k + 1))) as [anns ->].
  { intros r [Hr Hp]%elem_of_redactions_filter.
    apply (Hc r 0); [done|simpl; lia|]. by rewrite Nat.add_0_r. }
  destruct (IH (S k)) as [out ->].
  { intros r i Hr Hi Hp. apply (Hc r (S i)); [done|simpl; lia|].
    by replace (k + S i + 1) with (S k + i + 1) by lia. }
  simpl. eauto.
Qed.

Lemma burn_pages_length rs ps : ∀ k out,
  burn_pages rs k ps = Ok out → length out = length ps.
Proof.
  induction ps as [|p ps IH]; intros k out; simpl.
  - by intros [= <-].
  - destruct (apply_redactions p _) as [p'|e]; [|done]. simpl.
    destruct (burn_pages rs (S k) ps) as [ps'|e] eqn:Hps; [|done]. simpl.
    intros [= <-]. simpl. f_equal. by eapply IH.
Qed.

Lemma burn_pages_lookup rs ps : ∀ k out i p,
  burn_pages rs k ps = Ok out → ps !! i = Some p →
  ∃ anns, square_annotations p (redactions_filter rs (k + i + 1)) = Ok anns ∧
          out !! i = Some (with_annotations p anns).
Proof.
  induction ps as [|q ps IH]; intros k out i p; simpl; [done|].
  rewrite apply_redactions_eq.
  destruct (square_annotations q _) as [anns|e] eqn:Hq; [|done]. simpl.
  destruct (burn_pages rs (S k) ps) as [ps'|e] eqn:Hps; [|done]. simpl.
  intros [= <-] Hi. destruct i as [|i]; simpl in *.
  - injection Hi as ->. exists anns. by rewrite Nat.add_0_r.
  - replace (k + S i + 1) with (S k + i + 1) by lia. by eapply IH.
Qed.

Lemma burn_pages_ext rs rs' ps : ∀ k,
  (∀ i, i < length ps →
        redactions_filter rs (k + i + 1) = redactions_filter rs' (k + i + 1)) →
  burn_pages rs k ps = burn_pages rs' k ps.
Proof.
  induction ps as [|p ps IH]; intros k He; simpl; [done|].
  assert (H0 := He 0 ltac:(simpl; lia)). rewrite Nat.add_0_r in H0.
  rewrite H0, (IH (S k)); [done|].
  intros i Hi. replace (S k + i + 1) with (k + S i + 1) by lia.
  apply He. simpl; lia.
Qed.

(** What a successful run returns, page by page. *)
Lemma burn_lookup pages rs out i p :
  burn pages rs = Ok out → pages !! i = Some p →
  ∃ anns,
    Forall2 (λ r a, redaction_annotation p r = Ok a)
            (redactions_filter rs (i + 1)) anns ∧
    out !! i = Some (with_annotations p anns).
Proof.
  rewrite burn_eq. intros Hb Hi.
  destruct (burn_pages_lookup _ _ _ _ _ _ Hb Hi) as (anns & Ha & Ho).
  exists anns. split; [|done]. by apply square_annotations_Forall2.
Qed.

(** A run succeeds when the coordinates of the stored redactions can be
    converted. *)
Lemma burn_ok pages rs :
  (∀ r, r ∈ rs → convertible r) → ∃ out, burn pages rs = Ok out.
Proof.
  intros Hc. rewrite burn_eq. apply burn_pages_ok. eauto.
Qed.

(** An annotation built for a redaction of page [i + 1] is on page [i]
    of the output. *)
Lemma burn_attaches pages rs i p r a :
  (∀ r, r ∈ rs → convertible r) →
  pages !! i = Some p → r ∈ rs → coordinates__page (i + 1) r = true →
  redaction_annotation p r = Ok a →
  ∃ out p', burn pages rs = Ok out ∧ out !! i = Some p' ∧
            mediabox_height p' = mediabox_height p ∧
            Contents p' = Contents p ∧
            a ∈ default [] (Annots p').
Proof.
  intros Hc Hi Hr Hp Ha.
  destruct (burn_ok pages rs Hc) as [out Hout].
  destruct (burn_lookup _ _ _ _ _ Hout Hi) as (anns & Hf & Ho).
  exists out, (with_annotations p anns). split; [done|]. split; [done|].
  assert (Hin : a ∈ anns).
  { assert (Hrf : r ∈ redactions_filter rs (i + 1))
      by by apply elem_of_redactions_filter.
    apply list_elem_of_lookup in Hrf as [j Hj].
    destruct (Forall2_lookup_l _ _ _ _ _ Hf Hj) as (b & Hb & Hrb).
    assert (b = a) as -> by congruence.
    by eapply list_elem_of_lookup_2. }
  destruct anns as [|b anns]; [by apply elem_of_nil in Hin|].
  simpl. split; [done|]. split; [done|].
  apply elem_of_app. by right.
Qed.

(** The four conversions decide the annotation. *)
Lemma redaction_annotation_floats p r x y w h :
  float_get (coordinates r) "x" = Ok x →
  float_get (coordinates r) "y" = Ok y →
  float_get (coordinates r) "width" = Ok w →
  float_get (coordinates r) "height" = Ok h →
  redaction_annotation p r =
  Ok (black_square (mkRect x (mediabox_height p - y - h) (x + w)
                           (mediabox_height p - y - h + h))).
Proof.
  intros Hx Hy Hw Hh. unfold redaction_annotation.
  by rewrite Hx, Hy, Hh, Hw.
Qed.


Lemma with_annotations_height p anns :
  mediabox_height (with_annotations p anns) = mediabox_height p.
Proof. by destruct anns. Qed.

Lemma with_annotations_Contents p anns :
  Contents (with_annotations p anns) = Contents p.
Proof. by destruct anns. Qed.

Lemma with_annotations_Annots p anns :
  default [] (Annots (with_annotations p anns)) =
  (default [] (Annots p) ++ anns)%list.
Proof. destruct anns; simpl; [by rewrite app_nil_r|done]. Qed.

Lemma with_annotations_strip p anns :
  strip_annotations (with_annotations p anns) = strip_annotations p.
Proof. by destruct anns. Qed.

Lemma redaction_annotation_IC p r a :
  redaction_annotation p r = Ok a → IC a = [num_zero; num_zero; num_zero].
Proof.
  unfold redaction_annotation.
  destruct (float_get _ "x"); simpl; [|done].
  destruct (float_get _ "y"); simpl; [|done].
  destruct (float_get _ "height"); simpl; [|done].
  destruct (float_get _ "width"); simpl; [|done].
  by intros [= <-].
Qed.

Lemma filter_document_none (l : list Redaction) pk :
  (∀ r, r ∈ l → document r ≠ pk) →
  List.filter (λ r, Z.eqb (document r) pk) l = [].
Proof.
  induction l as [|r l IH]; intros Hn; [done|]. simpl.
  destruct (Z.eqb_spec (document r) pk) as [He|_].
  - exfalso. by apply (Hn r); [left|].
  - apply IH. intros r' Hr'. apply Hn. by right.
Qed.

(** The first failure-free run of the view, spelled out. *)
Lemma download_run w document_id d bytes pages :
  Document_objects w !! document_id = Some d →
  files w !! file_path d = Some bytes →
  PdfReader bytes = Some pages →
  document_download_redacted document_id w =
  (out ←! burn pages (List.filter (λ r, Z.eqb (document r) document_id)
                                  (Redaction_objects w));
   Ok {| body := PdfWriter_write out;
         content_type := "application/pdf";
         as_attachment := true;
         filename := title d ++ "_redacted.pdf" |}, w).
Proof.
  intros Hd Hf Hp.
  unfold document_download_redacted, mbind, get_object_or_404,
    redactions_all, open_rb, lift, mret.
  rewrite Hd, Hf, Hp. by destruct (burn pages _).
Qed.

(** The view hands the world back as it found it. *)
Lemma download_world w document_id :
  snd (document_download_redacted document_id w) = w.
Proof.
  unfold document_download_redacted, mbind, get_object_or_404,
    redactions_all, open_rb, lift, mret.
  destruct (Document_objects w !! document_id) as [d|]; [|done].
  destruct (files w !! file_path d) as [bytes|];
    [|by destruct (String.eqb (file_path d) EmptyString)].
  destruct (PdfReader bytes) as [pages|]; [|done].
  by destruct (burn pages _).
Qed.

(** Marks of one colour: what shows after painting them is that colour
    where one of them covers the point, and what was shown before
    elsewhere. *)
Lemma paint_one_colour k px py anns : ∀ shown,
  Forall (λ a, IC a = k) anns →
  fold_left (paint px py) anns shown =
  if existsb (λ a, covers a px py) anns then Painted k else shown.
Proof.
  induction anns as [|a anns IH]; intros shown Hk; [done|].
  apply Forall_cons in Hk as [Ha Hk]. simpl. rewrite (IH _ Hk).
  unfold paint. rewrite Ha.
  destruct (covers a px py); simpl; [|done].
  by destruct (existsb _ anns).
Qed.

Lemma paint_twice k px py anns shown :
  Forall (λ a, IC a = k) anns →
  fold_left (paint px py) anns (fold_left (paint px py) anns shown) =
  fold_left (paint px py) anns shown.
Proof.
  intros Hk. rewrite !(paint_one_colour k) by done.
  by destruct (existsb _ anns).
Qed.

Lemma Forall2_annotation_functional p rs anns anns' :
  Forall2 (λ r a, redaction_annotation p r = Ok a) rs anns →
  Forall2 (λ r a, redaction_annotation p r = Ok a) rs anns' →
  anns = anns'.
Proof.
  intros H. revert anns'. induction H as [|r a rs anns Ha _ IH]; intros anns'.
  - by inversion 1.
  - inversion 1 as [|? b ? l Hb Hl]; subst. f_equal; [congruence|by apply IH].
Qed.

(** Stripping the annotations of the output gives the stripped source:
    the marks are nowhere else in the pages. *)
Lemma burn_strip_annotations pages rs out :
  burn pages rs = Ok out →
  strip_annotations <$> out = strip_annotations <$> pages.
Proof.
  intros Hout. apply list_eq. intros i. rewrite !list_lookup_fmap.
  destruct (pages !! i) as [p|] eqn:Hi.
  - destruct (burn_lookup _ _ _ _ _ Hout Hi) as (anns & _ & ->).
    simpl. by rewrite with_annotations_strip.
  - rewrite burn_eq in Hout. apply burn_pages_length in Hout.
    apply lookup_ge_None in Hi.
    rewrite (proj2 (lookup_ge_None out i)); [done|lia].
Qed.

(** * The claims *)

(** C3, as the code has it.  A redaction whose stored page number is not
    the number of a page of the document is selected for no page: the run
    is the run without it, and raises nothing on its account. *)
Theorem out_of_range_redaction_ignored
    (pages : list Page) (rs1 : list Redaction) (r : Redaction)
    (rs2 : list Redaction) :
  (∀ n : nat, (1 ≤ n ≤ length pages)%nat → coordinates__page n r = false) →
  burn pages (rs1 ++ r :: rs2) = burn pages (rs1 ++ rs2) ∧
  ((∀ r', r' ∈ (rs1 ++ rs2)%list → convertible r') →
   ∃ out, burn pages (rs1 ++ r :: rs2) = Ok out).
Proof.
  intros Hout.
  assert (Heq : burn pages (rs1 ++ r :: rs2) = burn pages (rs1 ++ rs2)).
  { rewrite !burn_eq. apply burn_pages_ext. intros i Hi.
    unfold redactions_filter. rewrite !List.filter_app. simpl.
    rewrite Hout; [done|lia]. }
  split; [done|]. intros Hc. rewrite Heq. by apply burn_ok.
Qed.

(** C4, as the code has it.  No redaction is rejected for its geometry:
    whatever numbers its coordinates convert to (a width or a height that
    is zero or negative, a rectangle above, below, left or right of the
    media box), the run succeeds and the page carries a black [/Square]
    annotation with the rectangle as computed. *)
Theorem degenerate_rect_is_attached pages rs i p r x y w h :
  (∀ r', r' ∈ rs → convertible r') →
  pages !! i = Some p → r ∈ rs →
  coordinates__page (i + 1) r = true →
  float_get (coordinates r) "x" = Ok x →
  float_get (coordinates r) "y" = Ok y →
  float_get (coordinates r) "width" = Ok w →
  float_get (coordinates r) "height" = Ok h →
  ∃ out p' a,
    burn pages rs = Ok out ∧ out !! i = Some p' ∧
    a ∈ default [] (Annots p') ∧
    Type_ a = "/Annot" ∧ Subtype a = "/Square" ∧
    C a = [num_zero; num_zero; num_zero] ∧
    IC a = [num_zero; num_zero; num_zero] ∧
    Rect_ a = mkRect x (mediabox_height p - y - h) (x + w)
                     (mediabox_height p - y - h + h).
Proof.
  intros Hc Hi Hr Hp Hx Hy Hw Hh.
  set (a := black_square (mkRect x (mediabox_height p - y - h) (x + w)
                                 (mediabox_height p - y - h + h))).
  destruct (burn_attaches pages rs i p r a Hc Hi Hr Hp)
    as (out & p' & Hout & Hp' & _ & _ & Ha).
  { by apply redaction_annotation_floats. }
  by exists out, p', a.
Qed.

(** C7.  Page [i] of the output is page [i] of the source with one
    annotation appended for each redaction whose stored page number is
    [i + 1], in the order of the redactions, and nothing else. *)
Theorem page_receives_its_redactions pages rs :
  (∀ r, r ∈ rs → convertible r) →
  ∃ out,
    burn pages rs = Ok out ∧ length out = length pages ∧
    ∀ i p, pages !! i = Some p →
      ∃ anns,
        out !! i = Some (with_annotations p anns) ∧
        Forall2 (λ r a, redaction_annotation p r = Ok a)
                (List.filter (coordinates__page (i + 1)) rs) anns.
Proof.
  intros Hc. destruct (burn_ok pages rs Hc) as [out Hout].
  exists out. split; [done|]. split.
  - rewrite burn_eq in Hout. by eapply burn_pages_length.
  - intros i p Hi.
    destruct (burn_lookup _ _ _ _ _ Hout Hi) as (anns & Hf & Ho).
    by exists anns.
Qed.

(** C5.  For a source that parses and redactions that convert, the
    download returns a PDF written from as many pages as the source has,
    page [i] of the output being page [i] of the source (same media box,
    same content stream); with no redaction stored for the document the
    pages written are the pages read. *)
Theorem download_keeps_pages w document_id d bytes pages :
  Document_objects w !! document_id = Some d →
  files w !! file_path d = Some bytes →
  PdfReader bytes = Some pages →
  (∀ r, r ∈ Redaction_objects w → document r = document_id → convertible r) →
  ∃ out,
    fst (document_download_redacted document_id w) =
      Ok {| body := PdfWriter_write out;
            content_type := "application/pdf";
            as_attachment := true;
            filename := title d ++ "_redacted.pdf" |} ∧
    length out = length pages ∧
    (∀ i p, pages !! i = Some p →
       ∃ p', out !! i = Some p' ∧
             Contents p' = Contents p ∧
             mediabox_height p' = mediabox_height p) ∧
    ((∀ r, r ∈ Redaction_objects w → document r ≠ document_id) → out = pages).
Proof.
  intros Hd Hf Hp Hc.
  rewrite (download_run w document_id d bytes pages Hd Hf Hp).
  set (rs := List.filter _ (Redaction_objects w)).
  assert (Hrs : ∀ r, r ∈ rs → convertible r).
  { intros r [Hr Hid]%list_elem_of_In%filter_In.
    apply Hc; [by apply list_elem_of_In|]. by apply Z.eqb_eq. }
  destruct (burn_ok pages rs Hrs) as [out Hout].
  exists out. rewrite Hout. simpl. split; [done|].
  assert (Hlen : length out = length pages).
  { rewrite burn_eq in Hout. by eapply burn_pages_length. }
  split; [done|]. split.
  - intros i p Hi.
    destruct (burn_lookup _ _ _ _ _ Hout Hi) as (anns & _ & Ho).
    exists (with_annotations p anns). split; [done|].
    by rewrite with_annotations_Contents, with_annotations_height.
  - intros Hnone.
    assert (rs = []) as Hnil by by apply filter_document_none.
    rewrite Hnil in Hout. apply list_eq. intros i.
    destruct (pages !! i) as [p|] eqn:Hi.
    + destruct (burn_lookup _ _ _ _ _ Hout Hi) as (anns & Hf2 & Ho).
      simpl in Hf2. inversion Hf2; subst. by rewrite Ho.
    + apply lookup_ge_None in Hi. apply lookup_ge_None. lia.
Qed.

(** C8.  Burning the redactions into a document and then the same
    redactions into the result gives, page by page, the content stream
    and the media box of the first result, and at every point what the
    first result shows there. *)
Theorem burning_twice_looks_the_same pages rs :
  (∀ r, r ∈ rs → convertible r) →
  ∃ once twice,
    burn pages rs = Ok once ∧ burn once rs = Ok twice ∧
    length twice = length once ∧
    ∀ i p1, once !! i = Some p1 →
      ∃ p2, twice !! i = Some p2 ∧
            Contents p2 = Contents p1 ∧
            mediabox_height p2 = mediabox_height p1 ∧
            ∀ px py, shown_at p2 px py = shown_at p1 px py.
Proof.
  intros Hc.
  destruct (burn_ok pages rs Hc) as [once Honce].
  destruct (burn_ok once rs Hc) as [twice Htwice].
  exists once, twice. split; [done|]. split; [done|].
  assert (Hlen1 : length once = length pages).
  { rewrite burn_eq in Honce. by eapply burn_pages_length. }
  split.
  { rewrite burn_eq in Htwice. by eapply burn_pages_length. }
  intros i p1 Hi1.
  destruct (lookup_lt_is_Some_2 pages i) as [p Hi].
  { rewrite <- Hlen1. by eapply lookup_lt_Some. }
  destruct (burn_lookup _ _ _ _ _ Honce Hi) as (anns & Hf & Ho).
  assert (p1 = with_annotations p anns) as -> by congruence.
  destruct (burn_lookup _ _ _ _ _ Htwice Hi1) as (anns' & Hf' & Ho').
  assert (anns' = anns) as ->.
  { eapply Forall2_annotation_functional; [|exact Hf].
    eapply Forall2_impl; [exact Hf'|]. intros r a <-.
    apply redaction_annotation_height. by rewrite with_annotations_height. }
  eexists. split; [exact Ho'|].
  rewrite !with_annotations_Contents, !with_annotations_height.
  split; [done|]. split; [done|]. intros px py.
  unfold shown_at. rewrite !with_annotations_Annots, !fold_left_app.
  apply (paint_twice [num_zero; num_zero; num_zero]).
  apply Forall_forall. intros a Ha.
  apply list_elem_of_lookup in Ha as [j Hj].
  destruct (Forall2_lookup_r _ _ _ _ _ Hf Hj) as (r & _ & Hr).
  by eapply redaction_annotation_IC.
Qed.

(** C9.  A call of the view leaves the database and the files on disk as
    they were, and a second call on the world the first one left returns
    what the first returned. *)
Theorem download_leaves_the_source w document_id :
  snd (document_download_redacted document_id w) = w ∧
  files (snd (document_download_redacted document_id w)) = files w ∧
  document_download_redacted document_id
    (snd (document_download_redacted document_id w)) =
  document_download_redacted document_id w.
Proof.
  rewrite !download_world. by split_and!.
Qed.

(** * More on the download *)

Lemma float_raises v e :
  float v = Raise e → e = TypeError ∨ e = ValueError ∨ e = OverflowError.
Proof.
  destruct v as [|b|[z|f]|s|l|m]; simpl; try (intros [= <-]; by left); try done.
  - destruct (float_of_int z); [done|]. intros [= <-]. right. by right.
  - destruct (float_of_str s); [done|]. intros [= <-]. right. by left.
Qed.

Lemma float_get_raises m key e :
  float_get (JObj m) key = Raise e →
  e = TypeError ∨ e = ValueError ∨ e = OverflowError.
Proof.
  unfold float_get, get. destruct (m !! key); apply float_raises.
Qed.

Lemma coordinates__page_object n r :
  coordinates__page n r = true → ∃ m, coordinates r = JObj m.
Proof.
  unfold coordinates__page. destruct (coordinates r); try done. eauto.
Qed.

Lemma redaction_annotation_convertible p r a :
  redaction_annotation p r = Ok a → convertible r.
Proof.
  unfold redaction_annotation, convertible.
  destruct (float_get _ "x"); simpl; [|done].
  destruct (float_get _ "y"); simpl; [|done].
  destruct (float_get _ "height"); simpl; [|done].
  destruct (float_get _ "width"); simpl; [|done].
  done.
Qed.

Lemma redaction_annotation_raises p r m e :
  coordinates r = JObj m → redaction_annotation p r = Raise e →
  e = TypeError ∨ e = ValueError ∨ e = OverflowError.
Proof.
  intros Hm. unfold redaction_annotation. rewrite Hm.
  destruct (float_get _ "x") eqn:Hx; simpl; [|intros [= <-]; by eapply float_get_raises].
  destruct (float_get _ "y") eqn:Hy; simpl; [|intros [= <-]; by eapply float_get_raises].
  destruct (float_get _ "height") eqn:Hh; simpl; [|intros [= <-]; by eapply float_get_raises].
  destruct (float_get _ "width") eqn:Hw; simpl; [|intros [= <-]; by eapply float_get_raises].
  done.
Qed.

Lemma square_annotations_raises p rs e :
  square_annotations p rs = Raise e →
  ∃ r, r ∈ rs ∧ redaction_annotation p r = Raise e.
Proof.
  induction rs as [|r rs IH]; simpl; [done|].
  destruct (redaction_annotation p r) as [a|e'] eqn:Hr; simpl.
  - destruct (square_annotations p rs) as [anns|e'] eqn:Hrs; simpl; [done|].
    intros [= <-]. destruct IH as (r' & Hin & Hr'); [done|].
    exists r'. split; [by right|done].
  - intros [= <-]. exists r. split; [by left|done].
Qed.

Lemma burn_pages_raises rs ps : ∀ k e,
  burn_pages rs k ps = Raise e →
  ∃ i p r, ps !! i = Some p ∧ r ∈ redactions_filter rs (k + i + 1) ∧
           redaction_annotation p r = Raise e.
Proof.
  induction ps as [|p ps IH]; intros k e; simpl; [done|].
  rewrite apply_redactions_eq.
  destruct (square_annotations p _) as [anns|e'] eqn:Hp; simpl.
  - destruct (burn_pages rs (S k) ps) as [ps'|e'] eqn:Hps; simpl; [done|].
    intros [= <-]. destruct (IH _ _ Hps) as (i & q & r & Hi & Hr & He).
    exists (S i), q, r. split; [done|].
    by replace (k + S i + 1) with (S k + i + 1) by lia.
  - intros [= <-]. apply square_annotations_raises in Hp as (r & Hr & He).
    exists 0, p, r. split; [done|]. by rewrite Nat.add_0_r.
Qed.

(** X1.  The loops return their pages exactly when every redaction that
    is stored for an existing page converts: a redaction of a page the
    document has not is never looked at, and one redaction of an existing
    page that does not convert loses the whole output. *)
Theorem burn_succeeds_iff (pages : list Page) (rs : list Redaction) :
  (∃ out, burn pages rs = Ok out) ↔
  (∀ r (i : nat), r ∈ rs → (i < length pages)%nat →
                  coordinates__page (i + 1) r = true → convertible r).
Proof.
  split.
  - intros [out Hout] r i Hr Hi Hp.
    destruct (lookup_lt_is_Some_2 pages i Hi) as [p Hpi].
    destruct (burn_lookup _ _ _ _ _ Hout Hpi) as (anns & Hf & _).
    assert (Hrf : r ∈ redactions_filter rs (i + 1))
      by by apply elem_of_redactions_filter.
    apply list_elem_of_lookup in Hrf as [j Hj].
    destruct (Forall2_lookup_l _ _ _ _ _ Hf Hj) as (a & _ & Ha).
    by eapply redaction_annotation_convertible.
  - intros Hc. rewrite burn_eq. apply burn_pages_ok.
    intros r i Hr Hi Hp. by apply (Hc r i).
Qed.

Lemma burn_raises_only_conversion_errors_aux pages rs e :
  burn pages rs = Raise e →
  e = TypeError ∨ e = ValueError ∨ e = OverflowError.
Proof.
  rewrite burn_eq. intros (i & p & r & _ & Hr & He)%burn_pages_raises.
  apply elem_of_redactions_filter in Hr as [_ Hp].
  apply coordinates__page_object in Hp as [m Hm].
  by eapply redaction_annotation_raises.
Qed.

(** X2.  The only exceptions the loops raise are those of [float]:
    [TypeError], [ValueError], and [OverflowError] on an integer too large
    for a float.  The page index is always in range, and the redactions
    selected for a page are objects, so [coords.get] exists. *)
Theorem burn_raises_only_conversion_errors pages rs e :
  burn pages rs = Raise e →
  e = TypeError ∨ e = ValueError ∨ e = OverflowError.
Proof.
  rewrite burn_eq. intros (i & p & r & _ & Hr & He)%burn_pages_raises.
  apply elem_of_redactions_filter in Hr as [_ Hp].
  apply coordinates__page_object in Hp as [m Hm].
  by eapply redaction_annotation_raises.
Qed.

(** X3.  The annotations are appended to the reader's own page objects:
    when the loop is over, the pages the reader holds are the pages the
    writer was given. *)
Theorem reader_holds_the_written_pages (pages : list Page) rs :
  process_pages rs (seq 0 (length pages)) pages [] =
  (out ←! burn pages rs; Ok (out, out)).
Proof.
  rewrite burn_eq.
  pose proof (process_pages_eq rs pages [] []) as H. simpl in H.
  by rewrite H.
Qed.

(** X4.  The annotations a page had are kept, in their order, in front of
    the new ones; the new ones are black squares, one for each redaction
    stored for the page. *)
Theorem existing_annotations_kept pages rs out (i : nat) p :
  burn pages rs = Ok out → pages !! i = Some p →
  ∃ p' new,
    out !! i = Some p' ∧
    default [] (Annots p') = (default [] (Annots p) ++ new)%list ∧
    length new = length (List.filter (coordinates__page (i + 1)) rs) ∧
    Forall (λ a, ∃ rect, a = black_square rect) new.
Proof.
  intros Hout Hi.
  destruct (burn_lookup _ _ _ _ _ Hout Hi) as (anns & Hf & Ho).
  exists (with_annotations p anns), anns. split; [done|].
  split; [apply with_annotations_Annots|].
  split; [symmetry; by eapply Forall2_length|].
  apply Forall_forall. intros a Ha.
  apply list_elem_of_lookup in Ha as [j Hj].
  destruct (Forall2_lookup_r _ _ _ _ _ Hf Hj) as (r & _ & Hr).
  destruct (redaction_annotation_convertible _ _ _ Hr) as (Hx & Hy & Hh & Hw).
  apply is_ok_ex in Hx as [x Hx], Hy as [y Hy], Hh as [h Hh], Hw as [w Hw].
  rewrite (redaction_annotation_floats p r x y w h) in Hr by done.
  injection Hr as <-. eauto.
Qed.

(** X5.  A page for which no redaction is stored is written as it was
    read; in particular no [/Annots] key is added to it. *)
Theorem unmatched_page_untouched pages rs out (i : nat) :
  burn pages rs = Ok out →
  (∀ r, r ∈ rs → coordinates__page (i + 1) r = false) →
  out !! i = pages !! i.
Proof.
  intros Hout Hno.
  destruct (pages !! i) as [p|] eqn:Hi.
  - destruct (burn_lookup _ _ _ _ _ Hout Hi) as (anns & Hf & Ho).
    assert (Hnil : redactions_filter rs (i + 1) = []).
    { unfold redactions_filter. clear Hout Hf.
      induction rs as [|r rs IH]; [done|]. simpl.
      rewrite (Hno r) by by left.
      apply IH. intros; apply Hno; by right. }
    rewrite Hnil in Hf. inversion Hf; subst. done.
  - rewrite burn_eq in Hout. apply burn_pages_length in Hout.
    apply lookup_ge_None in Hi. apply lookup_ge_None. lia.
Qed.

Lemma redaction_of_at_most_one_page_aux (n n' : nat) r :
  coordinates__page n r = true → coordinates__page n' r = true → n = n'.
Proof.
  unfold coordinates__page.
  destruct (coordinates r) as [| | | | |m]; try done.
  destruct (m !! "page") as [[| |[z|f]| | |]|]; try done.
  - intros H1%Z.eqb_eq H2%Z.eqb_eq. lia.
  - destruct (int_of_num f) as [z|]; [|done].
    intros H1%Z.eqb_eq H2%Z.eqb_eq. lia.
Qed.

(** X6.  A stored redaction is selected for at most one page number. *)
Theorem redaction_of_at_most_one_page (n n' : nat) r :
  coordinates__page n r = true → coordinates__page n' r = true → n = n'.
Proof.
  unfold coordinates__page.
  destruct (coordinates r) as [| | | | |m]; try done.
  destruct (m !! "page") as [[| |[z|f]| | |]|]; try done.
  - intros H1%Z.eqb_eq H2%Z.eqb_eq. lia.
  - destruct (int_of_num f) as [z|]; [|done].
    intros H1%Z.eqb_eq H2%Z.eqb_eq. lia.
Qed.

(** X7.  The order in which two neighbouring redactions of different
    pages are stored has no effect on the output. *)
Theorem redactions_of_different_pages_commute
    (pages : list Page) (rs1 : list Redaction) (a b : Redaction)
    (rs2 : list Redaction) :
  (∀ n : nat, coordinates__page n a = false ∨ coordinates__page n b = false) →
  burn pages (rs1 ++ a :: b :: rs2) = burn pages (rs1 ++ b :: a :: rs2).
Proof.
  intros Hab. rewrite !burn_eq. apply burn_pages_ext. intros i _.
  unfold redactions_filter. rewrite !List.filter_app. f_equal. simpl.
  destruct (Hab (i + 1)%nat) as [Ha|Hb].
  - rewrite Ha. by destruct (coordinates__page (i + 1) b).
  - rewrite Hb. by destruct (coordinates__page (i + 1) a).
Qed.

Lemma with_annotations_snoc p anns a :
  with_annotations p (anns ++ [a]) = append_annotation (with_annotations p anns) a.
Proof.
  destruct anns as [|b anns]; [done|].
  unfold with_annotations, append_annotation. simpl.
  by rewrite <- app_assoc.
Qed.

(** X8.  Storing one more redaction, after the others, for page [i + 1]
    appends its annotation to page [i] of the output and changes no
    other page. *)
Theorem one_more_redaction_one_more_annotation
    (pages : list Page) rs r (i : nat) p a out p' :
  burn pages rs = Ok out →
  pages !! i = Some p → out !! i = Some p' →
  coordinates__page (i + 1) r = true →
  redaction_annotation p r = Ok a →
  burn pages (rs ++ [r]) = Ok (<[ i := append_annotation p' a ]> out).
Proof.
  intros Hout Hi Hoi Hp Ha.
  assert (Hlen : length out = length pages).
  { rewrite burn_eq in Hout. by eapply burn_pages_length. }
  destruct (burn_pages_ok (rs ++ [r]) pages 0) as [out' Hout'].
  { intros r' j Hr' Hj Hpj. apply elem_of_app in Hr' as [Hr'|Hr'].
    - destruct (lookup_lt_is_Some_2 pages j Hj) as [q Hq].
      destruct (burn_lookup _ _ _ _ _ Hout Hq) as (anns & Hf & _).
      assert (Hrf : r' ∈ redactions_filter rs (j + 1))
        by by apply elem_of_redactions_filter.
      apply list_elem_of_lookup in Hrf as [k Hk].
      destruct (Forall2_lookup_l _ _ _ _ _ Hf Hk) as (b & _ & Hb).
      by eapply redaction_annotation_convertible.
    - apply list_elem_of_singleton in Hr' as ->.
      by eapply redaction_annotation_convertible. }
  rewrite burn_eq, Hout'. f_equal.
  rewrite <- burn_eq in Hout'.
  apply list_eq. intros j.
  destruct (pages !! j) as [q|] eqn:Hq.
  - destruct (burn_lookup _ _ _ _ _ Hout Hq) as (anns & Hf & Ho).
    destruct (burn_lookup _ _ _ _ _ Hout' Hq) as (anns' & Hf' & Ho').
    unfold redactions_filter in Hf'. rewrite List.filter_app in Hf'.
    destruct (decide (i = j)) as [<-|Hne].
    + assert (q = p) as -> by congruence.
      assert (p' = with_annotations p anns) as -> by congruence.
      simpl in Hf'. rewrite Hp in Hf'.
      apply Forall2_app_inv_l in Hf' as (anns1 & anns2 & Hf1 & Hf2 & ->).
      assert (anns1 = anns) as ->
        by by eapply Forall2_annotation_functional.
      inversion Hf2 as [|? a' ? l Ha' Hl]; subst. inversion Hl; subst.
      assert (a' = a) as -> by congruence.
      rewrite Ho', list_lookup_insert_eq
        by (rewrite Hlen; by eapply lookup_lt_Some).
      by rewrite with_annotations_snoc.
    + rewrite list_lookup_insert_ne by done. rewrite Ho, Ho'.
      simpl in Hf'.
      destruct (coordinates__page (j + 1) r) eqn:Hpj.
      { exfalso. apply Hne.
        pose proof (redaction_of_at_most_one_page_aux _ _ _ Hp Hpj). lia. }
      rewrite app_nil_r in Hf'.
      by rewrite (Forall2_annotation_functional _ _ _ _ Hf' Hf).
  - apply lookup_ge_None in Hq.
    rewrite burn_eq in Hout'. apply burn_pages_length in Hout'.
    rewrite (proj2 (lookup_ge_None out' j)) by lia.
    symmetry. apply lookup_ge_None. rewrite length_insert. lia.
Qed.

(** The outcome of the view, case by case. *)
Lemma download_outcome w document_id :
  fst (document_download_redacted document_id w) =
  match Document_objects w !! document_id with
  | None => Raise Http404
  | Some d =>
      match files w !! file_path d with
      | None =>
          if String.eqb (file_path d) EmptyString then Raise ValueError
          else Raise OSError
      | Some bytes =>
          match PdfReader bytes with
          | None => Raise PdfReadError
          | Some pages =>
              out ←! burn pages
                       (List.filter (λ r, Z.eqb (document r) document_id)
                                    (Redaction_objects w));
              Ok {| body := PdfWriter_write out;
                    content_type := "application/pdf";
                    as_attachment := true;
                    filename := title d ++ "_redacted.pdf" |}
          end
      end
  end.
Proof.
  unfold document_download_redacted, mbind, get_object_or_404,
    redactions_all, open_rb, lift, mret.
  destruct (Document_objects w !! document_id) as [d|]; [|done].
  destruct (files w !! file_path d) as [bytes|];
    [|by destruct (String.eqb (file_path d) EmptyString)].
  destruct (PdfReader bytes) as [pages|]; [|done].
  by destruct (burn pages _).
Qed.

(** X9.  The view answers with a file exactly when the document exists,
    its file is on disk and parses, and every redaction of the document
    that is stored for one of its pages converts. *)
Theorem download_succeeds_iff w document_id :
  (∃ response, fst (document_download_redacted document_id w) = Ok response) ↔
  (∃ d bytes pages,
     Document_objects w !! document_id = Some d ∧
     files w !! file_path d = Some bytes ∧
     PdfReader bytes = Some pages ∧
     ∀ r (i : nat), r ∈ Redaction_objects w → document r = document_id →
       (i < length pages)%nat → coordinates__page (i + 1) r = true →
       convertible r).
Proof.
  rewrite download_outcome. split.
  - intros [response Hr].
    destruct (Document_objects w !! document_id) as [d|]; [|done].
    destruct (files w !! file_path d) as [bytes|] eqn:Hfile;
      [|by destruct (String.eqb (file_path d) EmptyString)].
    destruct (PdfReader bytes) as [pages|] eqn:Hparse; [|done].
    destruct (burn pages _) as [out|e] eqn:Hout; [|done].
    exists d, bytes, pages. split_and!; try done.
    intros r i Hr' Hd Hi Hp.
    destruct (lookup_lt_is_Some_2 pages i Hi) as [p Hpi].
    destruct (burn_lookup _ _ _ _ _ Hout Hpi) as (anns & Hf & _).
    assert (Hrf : r ∈ redactions_filter
                      (List.filter (λ r, Z.eqb (document r) document_id)
                                   (Redaction_objects w)) (i + 1)).
    { apply elem_of_redactions_filter. split; [|done].
      apply list_elem_of_In, filter_In. split; [by apply list_elem_of_In|].
      by apply Z.eqb_eq. }
    apply list_elem_of_lookup in Hrf as [j Hj].
    destruct (Forall2_lookup_l _ _ _ _ _ Hf Hj) as (a & _ & Ha).
    by eapply redaction_annotation_convertible.
  - intros (d & bytes & pages & -> & -> & -> & Hc).
    destruct (burn_pages_ok
                (List.filter (λ r, Z.eqb (document r) document_id)
                             (Redaction_objects w)) pages 0) as [out Hout].
    { intros r i [Hr Hd]%list_elem_of_In%filter_In Hi Hp.
      apply (Hc r i); [by apply list_elem_of_In|by apply Z.eqb_eq|done|done]. }
    rewrite burn_eq, Hout. simpl. eauto.
Qed.

(** X10.  The view raises [Http404] exactly when no document has the
    requested key; nothing later in the view raises it. *)
Theorem download_404_iff w document_id :
  fst (document_download_redacted document_id w) = Raise Http404 ↔
  Document_objects w !! document_id = None.
Proof.
  rewrite download_outcome. split.
  - destruct (Document_objects w !! document_id) as [d|]; [|done].
    destruct (files w !! file_path d) as [bytes|];
      [|by destruct (String.eqb (file_path d) EmptyString)].
    destruct (PdfReader bytes) as [pages|]; [|done].
    destruct (burn pages _) as [out|e] eqn:Hout; [done|].
    simpl. intros [= ->].
    by destruct (burn_raises_only_conversion_errors_aux _ _ _ Hout)
      as [?|[?|?]].
  - by intros ->.
Qed.

(** X11.  The redactions of other documents have no part in the download
    of a document. *)
Theorem download_ignores_other_documents w document_id l1 r l2 :
  Redaction_objects w = (l1 ++ r :: l2)%list →
  document r ≠ document_id →
  fst (document_download_redacted document_id w) =
  fst (document_download_redacted document_id
         {| Document_objects := Document_objects w;
            Redaction_objects := (l1 ++ l2)%list;
            files := files w |}).
Proof.
  intros Hrs Hne. rewrite !download_outcome. simpl. rewrite Hrs.
  rewrite !List.filter_app. simpl.
  by destruct (Z.eqb_spec (document r) document_id).
Qed.

(** * The other views and the display methods *)

(** X12.  The detail view lists the redactions whose foreign key is the
    document, and these are the redactions the download burns: for a
    file that parses, the download is the run of the loops on the listed
    redactions. *)
Theorem detail_lists_what_download_burns w pk d rs bytes pages :
  fst (document_detail pk w) = Ok (d, rs) →
  files w !! file_path d = Some bytes →
  PdfReader bytes = Some pages →
  (∀ r, r ∈ rs ↔ r ∈ Redaction_objects w ∧ document r = pk) ∧
  fst (document_download_redacted pk w) =
  (out ←! burn pages rs;
   Ok {| body := PdfWriter_write out;
         content_type := "application/pdf";
         as_attachment := true;
         filename := title d ++ "_redacted.pdf" |}).
Proof.
  unfold document_detail, mbind, get_object_or_404, redactions_all, mret.
  destruct (Document_objects w !! pk) as [d'|] eqn:Hd; [|done].
  simpl. intros [= -> <-] Hf Hp. split.
  - intros r. rewrite !list_elem_of_In, filter_In, Z.eqb_eq. done.
  - by rewrite (download_run w pk d bytes pages Hd Hf Hp).
Qed.

(** X13.  The creation endpoint stores nothing and never answers with a
    success: a method other than POST gets the 405 response, a POST for a
    missing document raises [Http404], and a POST for an existing
    document raises [TypeError], the insert of the two [None] values
    being refused and the handler raising a response.  The database and
    the files are as before in every case. *)
Theorem redaction_create_stores_nothing method document_id w :
  redaction_create method document_id w =
  (if decide (method = "POST") then
     match Document_objects w !! document_id with
     | Some _ => Raise TypeError
     | None => Raise Http404
     end
   else Ok (Some (NotAllowed ["POST"])), w).
Proof.
  unfold redaction_create.
  destruct (decide (method ∈ ["POST"])) as [Hin|Hnin].
  - apply list_elem_of_singleton in Hin as ->.
    rewrite decide_True by done.
    unfold mbind, get_object_or_404.
    by destruct (Document_objects w !! document_id).
  - rewrite decide_False; [done|].
    intros ->. apply Hnin. by apply list_elem_of_singleton.
Qed.

Lemma get_str_object m key default :
  ∃ s, get_str (JObj m) key default = Ok s.
Proof. simpl. destruct (m !! key); eauto. Qed.

(** X14.  Both display methods of a redaction return a string exactly
    when its coordinates are a JSON object; on any other value ([null],
    a list, a number, ...) they raise [AttributeError]. *)
Theorem display_needs_an_object doc r :
  ((∃ s, get_coordinates_display r = Ok s) ↔ (∃ m, coordinates r = JObj m)) ∧
  ((∃ s, Redaction__str__ doc r = Ok s) ↔ (∃ m, coordinates r = JObj m)) ∧
  ((∀ m, coordinates r ≠ JObj m) →
   get_coordinates_display r = Raise AttributeError ∧
   Redaction__str__ doc r = Raise AttributeError).
Proof.
  unfold get_coordinates_display, Redaction__str__.
  destruct (coordinates r) as [|b|q|s|l|m] eqn:Hc;
    try (split_and!; [split; [by intros [? ?]|by intros [? ?]] ..
                     |by intros _]).
  split_and!.
  - split; [eauto|]. intros _. simpl.
    destruct (m !! "page"), (m !! "x"), (m !! "y"), (m !! "width"),
      (m !! "height"); simpl; eauto.
  - split; [eauto|]. intros _. simpl. destruct (m !! "page"); simpl; eauto.
  - intros Hno. by destruct (Hno m).
Qed.

(** X15.  For a redaction whose coordinates object has none of the five
    keys, the admin column reads [Page ?: (0, 0) - 0x0] and [__str__]
    ends in [(Page N/A)], after the label of the type. *)
Theorem display_of_missing_keys doc r m :
  coordinates r = JObj m →
  m !! "page" = None → m !! "x" = None → m !! "y" = None →
  m !! "width" = None → m !! "height" = None →
  get_coordinates_display r = Ok "Page ?: (0, 0) - 0x0" ∧
  Redaction__str__ doc r =
  Ok (get_redaction_type_display r ++ " on " ++ title doc ++ " (Page N/A)").
Proof.
  intros Hc Hp Hx Hy Hw Hh.
  unfold get_coordinates_display, Redaction__str__. rewrite Hc. simpl.
  by rewrite Hp, Hx, Hy, Hw, Hh.
Qed.

(** * The seed command *)

Lemma add_content_complete content : ∀ elements,
  Forall complete content →
  add_content elements content =
  Found (elements ++ flat_map section_flowables content)%list.
Proof.
  induction content as [|section content IH]; intros elements Hc; simpl.
  - by rewrite app_nil_r.
  - apply Forall_cons in Hc as [(type & Ht & Htext) Hc].
    unfold item, section_flowables. rewrite Ht. simpl.
    destruct (String.eqb_spec type "heading") as [->|Hh].
    { destruct Htext as [text ->]; [by left|]. simpl.
      by rewrite IH, <- app_assoc. }
    destruct (String.eqb_spec type "paragraph") as [->|Hp].
    { destruct Htext as [text ->]; [by right|]. simpl.
      by rewrite IH, <- app_assoc. }
    destruct (String.eqb_spec type "space") as [->|Hs].
    { by rewrite IH, <- app_assoc. }
    destruct (String.eqb_spec type "pagebreak") as [->|Hb].
    { by rewrite IH, <- app_assoc. }
    by rewrite IH.
Qed.

Lemma add_content_app c1 : ∀ elements c2,
  add_content elements (c1 ++ c2) =
  (els ←? add_content elements c1; add_content els c2).
Proof.
  induction c1 as [|section c1 IH]; intros elements c2; simpl; [done|].
  destruct (item section "type") as [type|key]; simpl; [|done].
  destruct (String.eqb type "heading").
  { destruct (item section "text"); simpl; [apply IH|done]. }
  destruct (String.eqb type "paragraph").
  { destruct (item section "text"); simpl; [apply IH|done]. }
  destruct (String.eqb type "space"); [apply IH|].
  destruct (String.eqb type "pagebreak"); apply IH.
Qed.

Lemma add_content_Found content : ∀ elements els,
  add_content elements content = Found els → Forall complete content.
Proof.
  induction content as [|section content IH]; intros elements els; simpl.
  - constructor.
  - unfold item.
    destruct (section !! "type") as [type|] eqn:Ht; simpl; [|done].
    destruct (String.eqb_spec type "heading") as [->|Hh].
    { destruct (section !! "text") as [text|] eqn:Htext; simpl; [|done].
      intros H%IH. constructor; [|done]. exists "heading". eauto. }
    destruct (String.eqb_spec type "paragraph") as [->|Hp].
    { destruct (section !! "text") as [text|] eqn:Htext; simpl; [|done].
      intros H%IH. constructor; [|done]. exists "paragraph". eauto. }
    assert (Hc : complete section).
    { exists type. split; [done|]. by intros [->| ->]. }
    destruct (String.eqb type "space");
      [intros H%IH; by constructor|].
    destruct (String.eqb type "pagebreak"); intros H%IH; by constructor.
Qed.

(** X16.  When [create_pdf] returns a PDF, no section lacks its [type]
    and no heading or paragraph lacks its [text], and the PDF is built
    from the title, a spacer of a fifth of an inch, and what the sections
    give, in their order. *)
Theorem create_pdf_built_from_sections title content pdf :
  create_pdf title content = Found pdf →
  Forall complete content ∧
  pdf = SimpleDocTemplate_build
          ([Paragraph title title_style; Spacer 1 (0.2 * inch)] ++
           flat_map section_flowables content).
Proof.
  unfold create_pdf, flowables. intros Hpdf.
  destruct (add_content _ content) as [els|key] eqn:He; [|done].
  pose proof (add_content_Found _ _ _ He) as Hc. split; [done|].
  rewrite add_content_complete in He by done.
  simpl in Hpdf. injection He as <-. by injection Hpdf as <-.
Qed.

(** X17.  A section whose [type] is none of [heading], [paragraph],
    [space], [pagebreak] is skipped without a trace, whatever else it
    holds. *)
Theorem unknown_section_is_skipped title c1 section c2 type :
  section !! "type" = Some type →
  type ≠ "heading" → type ≠ "paragraph" → type ≠ "space" →
  type ≠ "pagebreak" →
  create_pdf title (c1 ++ section :: c2) = create_pdf title (c1 ++ c2).
Proof.
  intros Ht Hh Hp Hs Hb. unfold create_pdf, flowables.
  rewrite !add_content_app.
  destruct (add_content _ c1) as [els|key]; simpl; [|done].
  unfold item. rewrite Ht. simpl.
  by rewrite (proj2 (String.eqb_neq _ _) Hh), (proj2 (String.eqb_neq _ _) Hp),
    (proj2 (String.eqb_neq _ _) Hs), (proj2 (String.eqb_neq _ _) Hb).
Qed.

(** X19.  The flowables hold one page break for each section of type
    [pagebreak], and no other. *)
Theorem one_page_break_per_pagebreak_section title content els :
  flowables title content = Found els →
  length (List.filter is_PageBreak els) =
  length (List.filter
            (λ section, bool_decide (section !! "type" = Some "pagebreak"))
            content).
Proof.
  intros Hf. pose proof (add_content_Found _ _ _ Hf) as Hc.
  unfold flowables in Hf. rewrite add_content_complete in Hf by done.
  injection Hf as <-. simpl. clear Hc.
  induction content as [|section content IH]; [done|].
  simpl. rewrite List.filter_app, length_app, IH.
  unfold section_flowables.
  destruct (section !! "type") as [type|]; [|by rewrite bool_decide_false].
  destruct (String.eqb_spec type "heading") as [->|Hh].
  { rewrite bool_decide_false by done. by destruct (section !! "text"). }
  destruct (String.eqb_spec type "paragraph") as [->|Hp].
  { rewrite bool_decide_false by done. by destruct (section !! "text"). }
  destruct (String.eqb_spec type "space") as [->|Hs].
  { by rewrite bool_decide_false. }
  destruct (String.eqb_spec type "pagebreak") as [->|Hb].
  { by rewrite bool_decide_true. }
  rewrite bool_decide_false; [done|]. by intros [= ->].
Qed.

Lemma completeb_complete section : completeb section = true → complete section.
Proof.
  unfold completeb, complete.
  destruct (section !! "type") as [ty|]; [|done].
  intros H. exists ty. split; [done|]. intros Ht.
  assert (Hb : String.eqb ty "heading" || String.eqb ty "paragraph" = true).
  { destruct Ht as [->| ->]; by vm_compute. }
  rewrite Hb in H. by apply bool_decide_eq_true in H.
Qed.

Lemma forallb_complete content :
  forallb completeb content = true → Forall complete content.
Proof.
  intros H. apply Forall_forall. intros section Hs.
  apply completeb_complete.
  eapply (proj1 (forallb_forall _ _) H). by apply list_elem_of_In.
Qed.

(** The three sample contents lack no key. *)
Lemma documents_data_complete :
  Forall (λ d, Forall complete (data_content d)) documents_data.
Proof.
  unfold documents_data.
  repeat (apply Forall_cons_2; [apply forallb_complete; by vm_compute|]).
  apply Forall_nil_2.
Qed.

Lemma create_pdf_complete title content :
  Forall complete content → ∃ pdf, create_pdf title content = Found pdf.
Proof.
  intros Hc. unfold create_pdf, flowables.
  rewrite add_content_complete by done. simpl. eauto.
Qed.

(** The loop on complete contents: one save and one line per entry. *)
Lemma seed_loop_complete data : ∀ w stdout,
  Forall (λ d, Forall complete (data_content d)) data →
  ∃ w',
    seed_loop data w stdout =
    (Found (), w',
     (stdout ++
      ((λ d, style_SUCCESS ("âœ“ Created: " ++ data_title d)) <$> data))%list) ∧
    (Redaction_objects w = [] → Redaction_objects w' = []) ∧
    ((∀ fs name, fs !! storage_path fs name = None) →
     (∀ path bytes, files w !! path = Some bytes →
                    files w' !! path = Some bytes) ∧
     ((∀ pk d, Document_objects w !! pk = Some d →
               is_Some (files w !! file_path d)) →
      ∀ pk d, Document_objects w' !! pk = Some d →
              is_Some (files w' !! file_path d))).
Proof.
  induction data as [|d data IH]; intros w stdout Hc; simpl.
  - exists w. rewrite app_nil_r. by split_and!.
  - apply Forall_cons in Hc as [Hd Hc].
    destruct (create_pdf_complete (data_title d) _ Hd) as [pdf ->].
    destruct (IH (Document_file_save (data_title d) (data_filename d) pdf w)
                 (stdout ++ [style_SUCCESS ("âœ“ Created: " ++ data_title d)])%list
                 Hc) as (w' & -> & Hr & Hf).
    exists w'. split; [by rewrite <- app_assoc|]. split; [done|].
    intros Havail. destruct (Hf Havail) as [Hkeep Hdocs].
    assert (Hsave : ∀ path bytes, files w !! path = Some bytes →
              files (Document_file_save (data_title d) (data_filename d) pdf w)
                !! path = Some bytes).
    { intros path bytes Hp. simpl. rewrite lookup_insert_ne; [done|].
      intros <-. by rewrite Havail in Hp. }
    split; [by eauto|].
    intros Hinv. apply Hdocs. intros pk d'. simpl.
    destruct (decide (new_pk (Document_objects w) = pk)) as [<-|Hne].
    + rewrite lookup_insert_eq. intros [= <-]. simpl.
      by rewrite lookup_insert_eq.
    + rewrite lookup_insert_ne by done. intros Hd'.
      destruct (Hinv pk d' Hd') as [bytes Hb].
      exists bytes. by apply Hsave.
Qed.

Lemma Document_file_save_keeps title filename pdf w path bytes :
  (∀ fs name, fs !! storage_path fs name = None) →
  files w !! path = Some bytes →
  files (Document_file_save title filename pdf w) !! path = Some bytes.
Proof.
  intros Havail Hp. simpl. rewrite lookup_insert_ne; [done|].
  intros <-. by rewrite Havail in Hp.
Qed.

(** The command, run: three saves after the deletion, and six lines. *)
Lemma handle_run w :
  ∃ pdf1 pdf2 pdf3,
    create_pdf "Employment Contract - Confidential"
      get_employment_contract_content = Found pdf1 ∧
    create_pdf "Non-Disclosure Agreement (NDA)" get_nda_content = Found pdf2 ∧
    create_pdf "Settlement Agreement" get_settlement_content = Found pdf3 ∧
    handle w =
    (Found (),
     Document_file_save "Settlement Agreement" "settlement_agreement.pdf" pdf3
       (Document_file_save "Non-Disclosure Agreement (NDA)"
          "nda_agreement.pdf" pdf2
          (Document_file_save "Employment Contract - Confidential"
             "employment_contract.pdf" pdf1
             (Document_objects_all_delete w))),
     [ "Creating sample PDF documents...";
       style_WARNING "Deleted existing documents";
       style_SUCCESS "âœ“ Created: Employment Contract - Confidential";
       style_SUCCESS "âœ“ Created: Non-Disclosure Agreement (NDA)";
       style_SUCCESS "âœ“ Created: Settlement Agreement";
       style_SUCCESS (lf ++ "Successfully created 3 sample documents!") ]).
Proof.
  pose proof documents_data_complete as Hc. unfold documents_data in Hc.
  apply Forall_cons in Hc as [H1 Hc]. apply Forall_cons in Hc as [H2 Hc].
  apply Forall_cons in Hc as [H3 _]. simpl in H1, H2, H3.
  destruct (create_pdf_complete "Employment Contract - Confidential" _ H1)
    as [pdf1 Hp1].
  destruct (create_pdf_complete "Non-Disclosure Agreement (NDA)" _ H2)
    as [pdf2 Hp2].
  destruct (create_pdf_complete "Settlement Agreement" _ H3) as [pdf3 Hp3].
  exists pdf1, pdf2, pdf3.
  split; [exact Hp1|]. split; [exact Hp2|]. split; [exact Hp3|].
  unfold handle, documents_data. simpl seed_loop.
  rewrite Hp1, Hp2, Hp3. reflexivity.
Qed.

(** X20.  The seed command always runs to its end: none of the three
    sample contents lacks a key, so no [KeyError] stops it, and it writes
    its six lines in order. *)
Theorem handle_completes w :
  ∃ w',
    handle w =
    (Found (), w',
     [ "Creating sample PDF documents...";
       style_WARNING "Deleted existing documents";
       style_SUCCESS "âœ“ Created: Employment Contract - Confidential";
       style_SUCCESS "âœ“ Created: Non-Disclosure Agreement (NDA)";
       style_SUCCESS "âœ“ Created: Settlement Agreement";
       style_SUCCESS (lf ++ "Successfully created 3 sample documents!") ]).
Proof.
  destruct (handle_run w) as (pdf1 & pdf2 & pdf3 & _ & _ & _ & ->). eauto.
Qed.

Lemma handle_deletes_every_redaction_aux w :
  (∀ r, r ∈ Redaction_objects w →
        is_Some (Document_objects w !! document r)) →
  Redaction_objects (handle w).1.2 = [].
Proof.
  intros Hfk.
  destruct (handle_run w) as (pdf1 & pdf2 & pdf3 & _ & _ & _ & ->). simpl.
  induction (Redaction_objects w) as [|r l IH]; [done|]. simpl.
  destruct (Hfk r) as [d Hd]; [by left|].
  rewrite bool_decide_false by (by rewrite Hd).
  apply IH. intros r' Hr'. apply Hfk. by right.
Qed.

(** X21.  Seeding deletes every stored redaction: each redaction belongs
    to a document, all documents are deleted, and the deletion cascades. *)
Theorem handle_deletes_every_redaction w :
  (∀ r, r ∈ Redaction_objects w →
        is_Some (Document_objects w !! document r)) →
  Redaction_objects (handle w).1.2 = [].
Proof.
  intros Hfk.
  destruct (handle_run w) as (pdf1 & pdf2 & pdf3 & _ & _ & _ & ->). simpl.
  induction (Redaction_objects w) as [|r l IH]; [done|]. simpl.
  destruct (Hfk r) as [d Hd]; [by left|].
  rewrite bool_decide_false by (by rewrite Hd).
  apply IH. intros r' Hr'. apply Hfk. by right.
Qed.

(** X22.  Seeding removes and overwrites no file: the storage writes each
    PDF at a path that is free, and deleting the documents leaves their
    files on disk. *)
Theorem handle_keeps_files w path bytes :
  (∀ fs name, fs !! storage_path fs name = None) →
  files w !! path = Some bytes →
  files (handle w).1.2 !! path = Some bytes.
Proof.
  intros Havail Hp.
  destruct (handle_run w) as (pdf1 & pdf2 & pdf3 & _ & _ & _ & ->).
  unfold fst, snd. by do 3 (apply Document_file_save_keeps; [done|]).
Qed.

Lemma Document_file_save_present title filename pdf w :
  (∀ fs name, fs !! storage_path fs name = None) →
  (∀ pk d, Document_objects w !! pk = Some d →
           is_Some (files w !! file_path d)) →
  ∀ pk d,
    Document_objects (Document_file_save title filename pdf w) !! pk = Some d →
    is_Some (files (Document_file_save title filename pdf w) !! file_path d).
Proof.
  intros Havail Hinv pk d. simpl.
  destruct (decide (new_pk (Document_objects w) = pk)) as [<-|Hne].
  - rewrite lookup_insert_eq. intros [= <-]. simpl.
    by rewrite lookup_insert_eq.
  - rewrite lookup_insert_ne by done. intros Hd.
    destruct (Hinv pk d Hd) as [bytes Hb]. exists bytes.
    rewrite lookup_insert_ne; [done|].
    intros Heq. by rewrite <- Heq, Havail in Hb.
Qed.

Lemma burn_pages_no_redactions ps : ∀ k, burn_pages [] k ps = Ok ps.
Proof.
  induction ps as [|p ps IH]; intros k; simpl; [done|]. by rewrite IH.
Qed.

(** X23.  After seeding, the table of documents holds the three sample
    documents and nothing else, under three different keys, and the PDF
    of each is on disk at its path. *)
Theorem handle_leaves_three_documents w :
  (∀ docs, docs !! new_pk docs = None) →
  (∀ fs name, fs !! storage_path fs name = None) →
  ∃ pk1 pk2 pk3 path1 path2 path3 pdf1 pdf2 pdf3,
    NoDup [pk1; pk2; pk3] ∧
    create_pdf "Employment Contract - Confidential"
      get_employment_contract_content = Found pdf1 ∧
    create_pdf "Non-Disclosure Agreement (NDA)" get_nda_content = Found pdf2 ∧
    create_pdf "Settlement Agreement" get_settlement_content = Found pdf3 ∧
    Document_objects (handle w).1.2 =
      <[ pk3 := mkDocument "Settlement Agreement" path3 ]>
        (<[ pk2 := mkDocument "Non-Disclosure Agreement (NDA)" path2 ]>
           {[ pk1 := mkDocument "Employment Contract - Confidential" path1 ]}) ∧
    files (handle w).1.2 !! path1 = Some pdf1 ∧
    files (handle w).1.2 !! path2 = Some pdf2 ∧
    files (handle w).1.2 !! path3 = Some pdf3.
Proof.
  intros Hfresh Havail.
  destruct (handle_run w) as (pdf1 & pdf2 & pdf3 & Hp1 & Hp2 & Hp3 & ->).
  unfold fst, snd. simpl.
  set (fs1 := files w).
  set (path1 := storage_path fs1 "documents/employment_contract.pdf").
  set (fs2 := <[path1:=pdf1]> fs1).
  set (path2 := storage_path fs2 "documents/nda_agreement.pdf").
  set (fs3 := <[path2:=pdf2]> fs2).
  set (path3 := storage_path fs3 "documents/settlement_agreement.pdf").
  set (d1 := mkDocument "Employment Contract - Confidential" path1).
  set (d2 := mkDocument "Non-Disclosure Agreement (NDA)" path2).
  set (d3 := mkDocument "Settlement Agreement" path3).
  set (pk1 := new_pk ∅).
  set (docs1 := <[pk1:=d1]> (∅ : gmap Z Document)).
  set (pk2 := new_pk docs1).
  set (docs2 := <[pk2:=d2]> docs1).
  set (pk3 := new_pk docs2).
  assert (H21 : pk2 ≠ pk1).
  { intros Heq. pose proof (Hfresh docs1) as Hn. fold pk2 in Hn.
    rewrite Heq in Hn. subst docs1. by rewrite lookup_insert_eq in Hn. }
  assert (H32 : pk3 ≠ pk2).
  { intros Heq. pose proof (Hfresh docs2) as Hn. fold pk3 in Hn.
    rewrite Heq in Hn. subst docs2. by rewrite lookup_insert_eq in Hn. }
  assert (H31 : pk3 ≠ pk1).
  { intros Heq. pose proof (Hfresh docs2) as Hn. fold pk3 in Hn.
    rewrite Heq in Hn. subst docs2 docs1.
    by rewrite lookup_insert_ne, lookup_insert_eq in Hn. }
  assert (Hq21 : path2 ≠ path1).
  { intros Heq. pose proof (Havail fs2 "documents/nda_agreement.pdf") as Hn.
    fold path2 in Hn. rewrite Heq in Hn. subst fs2.
    by rewrite lookup_insert_eq in Hn. }
  assert (Hq32 : path3 ≠ path2).
  { intros Heq.
    pose proof (Havail fs3 "documents/settlement_agreement.pdf") as Hn.
    fold path3 in Hn. rewrite Heq in Hn. subst fs3.
    by rewrite lookup_insert_eq in Hn. }
  assert (Hq31 : path3 ≠ path1).
  { intros Heq.
    pose proof (Havail fs3 "documents/settlement_agreement.pdf") as Hn.
    fold path3 in Hn. rewrite Heq in Hn. subst fs3 fs2.
    by rewrite lookup_insert_ne, lookup_insert_eq in Hn. }
  exists pk1, pk2, pk3, path1, path2, path3, pdf1, pdf2, pdf3.
  split; [|split; [exact Hp1|split; [exact Hp2|split; [exact Hp3|
    split; [reflexivity|split_and!]]]]].
  - apply NoDup_cons. split.
    { intros Hin. apply elem_of_cons in Hin as [Hin|Hin]; [congruence|].
      apply list_elem_of_singleton in Hin. congruence. }
    apply NoDup_cons. split; [|apply NoDup_singleton].
    intros Hin. apply list_elem_of_singleton in Hin. congruence.
  - subst fs3 fs2.
    rewrite lookup_insert_ne by done. rewrite lookup_insert_ne by done.
    by rewrite lookup_insert_eq.
  - subst fs3. rewrite lookup_insert_ne by done. by rewrite lookup_insert_eq.
  - by rewrite lookup_insert_eq.
Qed.

(** X24.  A document the seed command leaves can be downloaded at once:
    its file is on disk, no redaction is left to burn, and the download
    writes the pages as the reader gave them (or raises [PdfReadError]
    when the reader rejects the bytes). *)
Theorem seeded_document_downloads w pk d :
  (∀ r, r ∈ Redaction_objects w →
        is_Some (Document_objects w !! document r)) →
  (∀ fs name, fs !! storage_path fs name = None) →
  Document_objects (handle w).1.2 !! pk = Some d →
  ∃ pdf,
    files (handle w).1.2 !! file_path d = Some pdf ∧
    fst (document_download_redacted pk (handle w).1.2) =
    match PdfReader pdf with
    | Some pages =>
        Ok {| body := PdfWriter_write pages;
              content_type := "application/pdf";
              as_attachment := true;
              filename := title d ++ "_redacted.pdf" |}
    | None => Raise PdfReadError
    end.
Proof.
  intros Hfk Havail Hd.
  pose proof (handle_deletes_every_redaction_aux w Hfk) as Hnone.
  destruct (handle_run w) as (pdf1 & pdf2 & pdf3 & _ & _ & _ & Hrun).
  rewrite Hrun in Hd, Hnone |- *. unfold fst, snd in Hd, Hnone |- *.
  set (w' := Document_file_save _ _ pdf3 _) in *.
  assert (Hfile : is_Some (files w' !! file_path d)).
  { revert pk d Hd. subst w'.
    do 3 (apply Document_file_save_present; [done|]). by intros pk d. }
  destruct Hfile as [pdf Hpdf]. exists pdf. split; [done|].
  fold (fst (document_download_redacted pk w')).
  rewrite download_outcome, Hd, Hpdf, Hnone. simpl.
  destruct (PdfReader pdf) as [pages|]; [|done].
  by rewrite burn_eq, burn_pages_no_redactions.
Qed.

End Download.

Arguments Found {A} a.
Arguments KeyError {A} key.

(** * The values of the rectangle *)

(** C1, as the code has it.  A redaction whose coordinates convert to
    the floats [x], [y], [w], [h], stored for page [i + 1] of a document
    whose page [i] has media-box height [H], puts on that page of the
    output a black [/Square] annotation whose [/Rect] is
    [x0 = x], [y0 = (H - y) - h], [x1 = x + w], [y1 = ((H - y) - h) + h],
    each operation being the one of the arithmetic.  In exact arithmetic
    [y1] is [H - y].  In binary64, on one page of height 792 the redaction
    [{x:100, y:200, width:150, height:20, page:1}] gives the rectangle
    [{x0:100, y0:572, x1:250, y1:592}]. *)
Theorem redaction_rect_in_pdf_space :
  (∀ (num : Type) (A : Arithmetic num) (float_of_str : string → option num)
     (pages : list (Page num)) (rs : list (Redaction num)) (i : nat)
     (p : Page num) (r : Redaction num) (x y w h : num),
     (∀ r', r' ∈ rs → convertible float_of_str r') →
     pages !! i = Some p → r ∈ rs →
     coordinates__page (i + 1) r = true →
     float_get float_of_str (coordinates r) "x" = Ok x →
     float_get float_of_str (coordinates r) "y" = Ok y →
     float_get float_of_str (coordinates r) "width" = Ok w →
     float_get float_of_str (coordinates r) "height" = Ok h →
     ∃ out p' a,
       burn float_of_str pages rs = Ok out ∧ out !! i = Some p' ∧
       a ∈ default [] (Annots p') ∧
       Subtype a = "/Square" ∧ IC a = [num_zero; num_zero; num_zero] ∧
       x0 (Rect_ a) = x ∧
       y0 (Rect_ a) = (mediabox_height p - y - h)%num ∧
       x1 (Rect_ a) = (x + w)%num ∧
       y1 (Rect_ a) = (mediabox_height p - y - h + h)%num) ∧
  (∀ (float_of_str : string → option Q)
     (pages : list (Page Q)) (rs : list (Redaction Q)) (i : nat)
     (p : Page Q) (r : Redaction Q) (x y w h : Q),
     (∀ r', r' ∈ rs → convertible float_of_str r') →
     pages !! i = Some p → r ∈ rs →
     coordinates__page (i + 1) r = true →
     float_get float_of_str (coordinates r) "x" = Ok x →
     float_get float_of_str (coordinates r) "y" = Ok y →
     float_get float_of_str (coordinates r) "width" = Ok w →
     float_get float_of_str (coordinates r) "height" = Ok h →
     ∃ out p' a,
       burn float_of_str pages rs = Ok out ∧ out !! i = Some p' ∧
       a ∈ default [] (Annots p') ∧
       Subtype a = "/Square" ∧ IC a = [0; 0; 0]%Q ∧
       x0 (Rect_ a) = x ∧
       y0 (Rect_ a) = (mediabox_height p - y - h)%Q ∧
       x1 (Rect_ a) = (x + w)%Q ∧
       (y1 (Rect_ a) == mediabox_height p - y)%Q) ∧
  burn no_str_float [page_792] [redaction_A] =
  Ok [mkPage (b64 792) (Contents page_792)
        (Some [black_square (rect64 100 572 250 592)])].
Proof.
  split; [|split; [|by vm_compute]].
  - intros num A float_of_str pages rs i p r x y w h Hc Hi Hr Hp Hx Hy Hw Hh.
    set (a := black_square (mkRect x (mediabox_height p - y - h) (x + w)
                                   (mediabox_height p - y - h + h))).
    destruct (burn_attaches float_of_str pages rs i p r a Hc Hi Hr Hp)
      as (out & p' & Hout & Hp' & _ & _ & Ha).
    { by apply redaction_annotation_floats. }
    by exists out, p', a.
  - intros float_of_str pages rs i p r x y w h Hc Hi Hr Hp Hx Hy Hw Hh.
    set (a := black_square (mkRect x (mediabox_height p - y - h) (x + w)
                                   (mediabox_height p - y - h + h))).
    destruct (burn_attaches float_of_str pages rs i p r a Hc Hi Hr Hp)
      as (out & p' & Hout & Hp' & _ & _ & Ha).
    { by apply redaction_annotation_floats. }
    exists out, p', a. repeat split; try done.
    simpl. ring.
Qed.



(** * The scenarios, run in binary64 *)

Lemma scenario_convertible (r : Redaction PrimFloat.float) :
  convertible no_str_float r →
  ∀ r', r' ∈ [r] → convertible no_str_float r'.
Proof. intros Hr r' Hr'. apply list_elem_of_singleton in Hr'. by subst. Defined.

Lemma redaction_A_convertible : convertible no_str_float redaction_A.
Proof. by vm_compute. Defined.

Lemma redaction_C_convertible : convertible no_str_float redaction_C.
Proof. by vm_compute. Defined.



(** C2.  On scenario A the mark is an entry of the page's [/Annots] and
    nothing else: the content stream of the output page is the source's,
    and removing [/Annots] gives the source page back. *)
Theorem redaction_is_a_strippable_annotation :
  ∃ p',
    burn no_str_float [page_792] [redaction_A] = Ok [p'] ∧
    Annots p' = Some [black_square (rect64 100 572 250 592)] ∧
    Contents p' = Contents page_792 ∧
    strip_annotations p' = page_792.
Proof.
  exists (mkPage (b64 792) (Contents page_792)
            (Some [black_square (rect64 100 572 250 592)])).
  split; [by vm_compute|]. done.
Qed.

Lemma redaction_rect_in_pdf_space_witness :
  ∃ out p' a,
    burn no_str_float [page_792] [redaction_A] = Ok out ∧
    out !! 0%nat = Some p' ∧
    a ∈ default [] (Annots p') ∧
    Subtype a = "/Square" ∧ IC a = [b64 0; b64 0; b64 0] ∧
    x0 (Rect_ a) = b64 100 ∧
    y0 (Rect_ a) = (b64 792 - b64 200 - b64 20)%num ∧
    x1 (Rect_ a) = (b64 100 + b64 150)%num ∧
    y1 (Rect_ a) = (b64 792 - b64 200 - b64 20 + b64 20)%num.
Proof.
  apply (proj1 redaction_rect_in_pdf_space PrimFloat.float binary64
           no_str_float [page_792] [redaction_A] 0%nat page_792 redaction_A
           (b64 100) (b64 200) (b64 150) (b64 20)).
  - exact (scenario_convertible _ redaction_A_convertible).
  - reflexivity.
  - apply list_elem_of_here.
  - by vm_compute.
  - by vm_compute.
  - by vm_compute.
  - by vm_compute.
  - by vm_compute.
Defined.

(** In binary64 the upper edge is not [H - y]: with
    [{x:100, y:0.07, width:150, height:32.19, page:1}] on the page of
    height 792, [((H - y) - h) + h] is the double above [H - y], and above
    the exact difference of [H] and [y].  Nor is [x0] the stored [x] when
    no double holds it: [float(2^53 + 1)] is [2^53]. *)
Lemma rounded_upper_edge_is_not_H_minus_y :
  (∃ a q1 qH qy,
     burn no_str_float [page_792] [redaction_decimal] =
       Ok [mkPage (b64 792) (Contents page_792) (Some [a])] ∧
     float_get no_str_float (coordinates redaction_decimal) "y" =
       Ok (decimal64 7 100) ∧
     PrimFloat.ltb (b64 792 - decimal64 7 100)%num (y1 (Rect_ a)) = true ∧
     Q_of_binary64 (y1 (Rect_ a)) = Some q1 ∧
     Q_of_binary64 (b64 792) = Some qH ∧
     Q_of_binary64 (decimal64 7 100) = Some qy ∧
     (qH - qy < q1)%Q) ∧
  (∃ a,
     burn no_str_float [page_792] [redaction_odd] =
       Ok [mkPage (b64 792) (Contents page_792) (Some [a])] ∧
     int_of_binary64 (x0 (Rect_ a)) = Some (2 ^ 53)%Z).
Proof.
  split.
  - eexists _, _, _, _.
    split; [by vm_compute|]. split; [by vm_compute|].
    split; [by vm_compute|]. split; [by vm_compute|].
    split; [by vm_compute|]. split; [by vm_compute|]. by vm_compute.
  - eexists. split; by vm_compute.
Qed.



(** Scenario B: the redaction of page 5 is dropped and the three pages
    are returned as they were read; no exception is raised. *)
Lemma page_5_of_3_raises_nothing :
  burn no_str_float three_pages [redaction_B] = Ok three_pages ∧
  ¬ fails (burn no_str_float three_pages [redaction_B]).
Proof.
  assert (H : burn no_str_float three_pages [redaction_B] = Ok three_pages)
    by by vm_compute.
  split; [done|]. rewrite H. simpl. tauto.
Qed.

Lemma out_of_range_redaction_ignored_witness :
  burn no_str_float three_pages ([] ++ redaction_B :: []) =
  burn no_str_float three_pages ([] ++ []) ∧
  ((∀ r', r' ∈ ([] ++ [])%list → convertible no_str_float r') →
   ∃ out, burn no_str_float three_pages ([] ++ redaction_B :: []) = Ok out).
Proof.
  apply (out_of_range_redaction_ignored no_str_float three_pages []
           redaction_B []).
  intros n Hn.
  assert (Hn3 : (n = 1 ∨ n = 2 ∨ n = 3)%nat) by (simpl in Hn; lia).
  destruct Hn3 as [Hn3|[Hn3|Hn3]]; rewrite Hn3; by vm_compute.
Defined.

(** Scenario C: the redaction of width 0 gives a page with an annotation
    whose rectangle has [x0 = x1]; no exception is raised. *)
Lemma width_0_raises_nothing :
  burn no_str_float [page_792] [redaction_C] =
  Ok [mkPage (b64 792) (Contents page_792)
        (Some [black_square (rect64 100 572 100 592)])] ∧
  ¬ fails (burn no_str_float [page_792] [redaction_C]).
Proof.
  assert (H : burn no_str_float [page_792] [redaction_C] =
              Ok [mkPage (b64 792) (Contents page_792)
                    (Some [black_square (rect64 100 572 100 592)])])
    by by vm_compute.
  split; [done|]. rewrite H. simpl. tauto.
Qed.

Lemma degenerate_rect_is_attached_witness :
  ∃ out p' a,
    burn no_str_float [page_792] [redaction_C] = Ok out ∧
    out !! 0%nat = Some p' ∧
    a ∈ default [] (Annots p') ∧
    Type_ a = "/Annot" ∧ Subtype a = "/Square" ∧
    C a = [b64 0; b64 0; b64 0] ∧
    IC a = [b64 0; b64 0; b64 0] ∧
    Rect_ a = mkRect (b64 100)
                     (mediabox_height page_792 - b64 200 - b64 20)
                     (b64 100 + b64 0)
                     (mediabox_height page_792 - b64 200 - b64 20 + b64 20).
Proof.
  refine (degenerate_rect_is_attached no_str_float
            [page_792] [redaction_C] 0%nat page_792 redaction_C
            (b64 100) (b64 200) (b64 0) (b64 20) _ _ _ _ _ _ _ _).
  - exact (scenario_convertible _ redaction_C_convertible).
  - reflexivity.
  - apply list_elem_of_here.
  - by vm_compute.
  - by vm_compute.
  - by vm_compute.
  - by vm_compute.
  - by vm_compute.
Defined.


(** The same redaction in binary64: the rectangle is
    [{x0:100, y0:592, x1:100, y1:592}]. *)
Lemma missing_width_and_height_in_binary64 :
  burn no_str_float [page_792] [redaction_corner] =
  Ok [mkPage (b64 792) (Contents page_792)
        (Some [black_square (rect64 100 592 100 592)])].
Proof. by vm_compute. Qed.

Lemma page_receives_its_redactions_witness :
  ∃ out,
    burn no_str_float [page_792] [redaction_A] = Ok out ∧
    length out = length [page_792] ∧
    ∀ i p, [page_792] !! i = Some p →
      ∃ anns,
        out !! i = Some (with_annotations p anns) ∧
        Forall2 (λ r a, redaction_annotation no_str_float p r = Ok a)
                (List.filter (coordinates__page (i + 1)) [redaction_A]) anns.
Proof.
  apply (page_receives_its_redactions no_str_float [page_792] [redaction_A]).
  exact (scenario_convertible _ redaction_A_convertible).
Defined.

Lemma download_keeps_pages_witness :
  ∃ out,
    fst (document_download_redacted no_str_float one_file_reader
           contents_writer 1 world_A) =
      Ok {| body := contents_writer out;
            content_type := "application/pdf";
            as_attachment := true;
            filename := "Report" ++ "_redacted.pdf" |} ∧
    length out = length [page_792] ∧
    (∀ i p, [page_792] !! i = Some p →
       ∃ p', out !! i = Some p' ∧
             Contents p' = Contents p ∧
             mediabox_height p' = mediabox_height p) ∧
    ((∀ r, r ∈ Redaction_objects world_A → document r ≠ 1%Z) →
     out = [page_792]).
Proof.
  apply (download_keeps_pages no_str_float one_file_reader contents_writer
           world_A 1%Z (mkDocument "Report" "documents/report.pdf")
           "%PDF-1.7 A" [page_792]).
  - by vm_compute.
  - by vm_compute.
  - by vm_compute.
  - intros r Hr _.
    exact (scenario_convertible _ redaction_A_convertible r Hr).
Defined.

Lemma burning_twice_looks_the_same_witness :
  ∃ once twice,
    burn no_str_float [page_792] [redaction_A] = Ok once ∧
    burn no_str_float once [redaction_A] = Ok twice ∧
    length twice = length once ∧
    ∀ i p1, once !! i = Some p1 →
      ∃ p2, twice !! i = Some p2 ∧
            Contents p2 = Contents p1 ∧
            mediabox_height p2 = mediabox_height p1 ∧
            ∀ px py, shown_at p2 px py = shown_at p1 px py.
Proof.
  apply (burning_twice_looks_the_same no_str_float [page_792] [redaction_A]).
  exact (scenario_convertible _ redaction_A_convertible).
Defined.

(** * Instances of the storage and of the key allocation *)

Lemma string_length_app (s1 s2 : string) :
  String.length (s1 ++ s2) = (String.length s1 + String.length s2)%nat.
Proof. induction s1 as [|c s1 IH]; simpl; [done|]. by rewrite IH. Qed.

Lemma string_length_underscores (n : nat) :
  String.length (String.concat EmptyString (replicate n "_")) = n.
Proof.
  induction n as [|n IH]; [done|].
  destruct n as [|n]; [done|].
  change (replicate (S (S n)) "_") with ("_" :: replicate (S n) "_").
  change (String.concat EmptyString ("_" :: replicate (S n) "_"))
    with ("_" ++ EmptyString
          ++ String.concat EmptyString (replicate (S n) "_")).
  rewrite !string_length_app, IH. done.
Qed.

Lemma longer_path_available (fs : gmap string string) (name : string) :
  fs !! longer_path fs name = None.
Proof.
  destruct (fs !! longer_path fs name) as [bytes|] eqn:Hl; [|done].
  exfalso. apply elem_of_map_to_list in Hl.
  assert (Hle : (String.length (longer_path fs name) ≤
                 max_list ((λ kv, String.length kv.1) <$> map_to_list fs))%nat).
  { apply max_list_elem_of_le.
    apply (list_elem_of_fmap_2 (λ kv : string * string, String.length kv.1))
      in Hl. done. }
  unfold longer_path in Hle at 1.
  rewrite !string_length_app, string_length_underscores in Hle. lia.
Qed.

Lemma key_above_fresh (docs : gmap Z Document) :
  docs !! key_above docs = None.
Proof.
  destruct (docs !! key_above docs) as [d|] eqn:Hl; [|done].
  exfalso. apply elem_of_map_to_list in Hl.
  assert (Hle : (Z.abs_nat (key_above docs) ≤
                 max_list ((λ kv, Z.abs_nat kv.1) <$> map_to_list docs))%nat).
  { apply max_list_elem_of_le.
    apply (list_elem_of_fmap_2 (λ kv : Z * Document, Z.abs_nat kv.1)) in Hl.
    done. }
  unfold key_above in Hle at 1. rewrite Zabs2Nat.id in Hle. lia.
Qed.

(** * Examples for the further properties *)

(** [float] of an integer too large for a double: the run raises
    [OverflowError]. *)
Lemma burn_raises_only_conversion_errors_witness :
  OverflowError = TypeError ∨ OverflowError = ValueError ∨
  OverflowError = OverflowError.
Proof.
  apply (burn_raises_only_conversion_errors no_str_float
           [page_792] [redaction_huge] OverflowError).
  by vm_compute.
Defined.

Lemma existing_annotations_kept_witness :
  ∃ p' new,
    [mkPage (b64 792) (Contents page_with_link)
       (Some [link_annotation; black_square (rect64 100 572 250 592)])]
      !! 0%nat = Some p' ∧
    default [] (Annots p') = (default [] (Annots page_with_link) ++ new)%list ∧
    length new = length (List.filter (coordinates__page (0 + 1)) [redaction_A]) ∧
    Forall (λ a, ∃ rect, a = black_square rect) new.
Proof.
  apply (existing_annotations_kept no_str_float
           [page_with_link] [redaction_A] _ 0%nat page_with_link).
  - by vm_compute.
  - reflexivity.
Defined.

Lemma unmatched_page_untouched_witness :
  [mkPage (b64 792) (Contents page_792)
     (Some [black_square (rect64 100 572 250 592)]); page_792; page_792]
    !! 1%nat = three_pages !! 1%nat.
Proof.
  apply (unmatched_page_untouched no_str_float three_pages [redaction_A]).
  - by vm_compute.
  - intros r Hr. apply list_elem_of_singleton in Hr. rewrite Hr.
    by vm_compute.
Defined.

Lemma redaction_of_at_most_one_page_witness : 1%nat = 1%nat.
Proof.
  apply (redaction_of_at_most_one_page 1 1 redaction_A); by vm_compute.
Defined.

Lemma redactions_of_different_pages_commute_witness :
  burn no_str_float three_pages ([] ++ redaction_A :: redaction_B :: []) =
  burn no_str_float three_pages ([] ++ redaction_B :: redaction_A :: []).
Proof.
  apply (redactions_of_different_pages_commute no_str_float three_pages []
           redaction_A redaction_B []).
  intros n. destruct (decide (n = 1%nat)) as [Hn|Hn].
  - right. rewrite Hn. by vm_compute.
  - left. unfold coordinates__page. simpl coordinates.
    replace (map_A !! "page")
      with (Some (JNum (num := PrimFloat.float) (PyInt 1)))
      by (by vm_compute).
    apply Z.eqb_neq. lia.
Defined.

Lemma download_ignores_other_documents_witness :
  (document_download_redacted no_str_float one_file_reader contents_writer
     1 world_two).1 =
  (document_download_redacted no_str_float one_file_reader contents_writer 1
     {| Document_objects := Document_objects world_two;
        Redaction_objects := ([redaction_A] ++ [])%list;
        files := files world_two |}).1.
Proof.
  apply (download_ignores_other_documents no_str_float one_file_reader
           contents_writer world_two 1%Z [redaction_A] redaction_other []).
  - reflexivity.
  - by vm_compute.
Defined.

Lemma detail_lists_what_download_burns_witness :
  (∀ r, r ∈ [redaction_A] ↔
        r ∈ Redaction_objects world_A ∧ document r = 1%Z) ∧
  (document_download_redacted no_str_float one_file_reader contents_writer
     1 world_A).1 =
  rbind (burn no_str_float [page_792] [redaction_A])
    (λ out, Ok {| body := contents_writer out;
                  content_type := "application/pdf";
                  as_attachment := true;
                  filename := "Report" ++ "_redacted.pdf" |}).
Proof.
  apply (detail_lists_what_download_burns no_str_float one_file_reader
           contents_writer world_A 1%Z
           (mkDocument "Report" "documents/report.pdf") [redaction_A]
           "%PDF-1.7 A" [page_792]).
  - by vm_compute.
  - by vm_compute.
  - by vm_compute.
Defined.

Lemma display_of_missing_keys_witness :
  get_coordinates_display number_sign container_sign redaction_empty =
    Ok "Page ?: (0, 0) - 0x0" ∧
  Redaction__str__ number_sign container_sign
    (mkDocument "Report" "documents/report.pdf") redaction_empty =
    Ok (get_redaction_type_display redaction_empty ++ " on " ++ "Report"
        ++ " (Page N/A)").
Proof.
  apply (display_of_missing_keys number_sign container_sign
           (mkDocument "Report" "documents/report.pdf") redaction_empty ∅);
    reflexivity.
Defined.

Lemma create_pdf_built_from_sections_witness :
  Forall complete [dict_type "space"; dict_type "note"] ∧
  "3" =
  counting_build
    ([Paragraph "Memo" title_style; Spacer 1 (0.2 * inch)] ++
     flat_map section_flowables [dict_type "space"; dict_type "note"]).
Proof.
  apply (create_pdf_built_from_sections counting_build "Memo"
           [dict_type "space"; dict_type "note"] "3").
  by vm_compute.
Defined.

Lemma unknown_section_is_skipped_witness :
  create_pdf counting_build "Memo"
    ([dict_type "space"] ++ dict_type "note" :: [dict_type "pagebreak"]) =
  create_pdf counting_build "Memo"
    ([dict_type "space"] ++ [dict_type "pagebreak"]).
Proof.
  apply (unknown_section_is_skipped counting_build "Memo"
           [dict_type "space"] (dict_type "note") [dict_type "pagebreak"]
           "note"); by vm_compute.
Defined.

Lemma one_page_break_per_pagebreak_section_witness :
  length (List.filter is_PageBreak
            [Paragraph "Memo" title_style; Spacer 1 (0.2 * inch);
             PageBreak; Spacer 1 (0.2 * inch)]) =
  length (List.filter
            (λ section, bool_decide (section !! "type" = Some "pagebreak"))
            [dict_type "pagebreak"; dict_type "space"]).
Proof.
  apply (one_page_break_per_pagebreak_section "Memo"
           [dict_type "pagebreak"; dict_type "space"]).
  by vm_compute.
Defined.

Lemma world_A_redactions_have_documents :
  ∀ r, r ∈ Redaction_objects world_A →
       is_Some (Document_objects world_A !! document r).
Proof.
  intros r Hr. apply list_elem_of_singleton in Hr. rewrite Hr.
  exists (mkDocument "Report" "documents/report.pdf"). by vm_compute.
Defined.

Lemma handle_deletes_every_redaction_witness :
  Redaction_objects
    (handle counting_build longer_path key_above plain_style plain_style
       world_A).1.2 = [].
Proof.
  apply (handle_deletes_every_redaction counting_build longer_path key_above
           plain_style plain_style world_A).
  exact world_A_redactions_have_documents.
Defined.

Lemma handle_keeps_files_witness :
  files
    (handle counting_build longer_path key_above plain_style plain_style
       world_A).1.2 !! "documents/report.pdf" = Some "%PDF-1.7 A".
Proof.
  apply (handle_keeps_files counting_build longer_path key_above
           plain_style plain_style world_A).
  - exact longer_path_available.
  - by vm_compute.
Defined.

Lemma handle_leaves_three_documents_witness :
  ∃ pk1 pk2 pk3 path1 path2 path3 pdf1 pdf2 pdf3,
    NoDup [pk1; pk2; pk3] ∧
    create_pdf counting_build "Employment Contract - Confidential"
      get_employment_contract_content = Found pdf1 ∧
    create_pdf counting_build "Non-Disclosure Agreement (NDA)"
      get_nda_content = Found pdf2 ∧
    create_pdf counting_build "Settlement Agreement"
      get_settlement_content = Found pdf3 ∧
    Document_objects
      (handle counting_build longer_path key_above plain_style plain_style
         world_A).1.2 =
      <[ pk3 := mkDocument "Settlement Agreement" path3 ]>
        (<[ pk2 := mkDocument "Non-Disclosure Agreement (NDA)" path2 ]>
           {[ pk1 := mkDocument "Employment Contract - Confidential" path1 ]}) ∧
    files
      (handle counting_build longer_path key_above plain_style plain_style
         world_A).1.2 !! path1 = Some pdf1 ∧
    files
      (handle counting_build longer_path key_above plain_style plain_style
         world_A).1.2 !! path2 = Some pdf2 ∧
    files
      (handle counting_build longer_path key_above plain_style plain_style
         world_A).1.2 !! path3 = Some pdf3.
Proof.
  apply (handle_leaves_three_documents counting_build longer_path key_above
           plain_style plain_style world_A).
  - exact key_above_fresh.
  - exact longer_path_available.
Defined.

Lemma seeded_document_downloads_witness :
  ∃ pdf,
    files
      (handle counting_build longer_path key_above plain_style plain_style
         world_A).1.2
      !! file_path
           (mkDocument "Employment Contract - Confidential"
              (longer_path (files world_A)
                 "documents/employment_contract.pdf")) = Some pdf ∧
    (document_download_redacted no_str_float one_file_reader contents_writer
       1
       (handle counting_build longer_path key_above plain_style plain_style
          world_A).1.2).1 =
    match one_file_reader pdf with
    | Some pages =>
        Ok {| body := contents_writer pages;
              content_type := "application/pdf";
              as_attachment := true;
              filename :=
                title (mkDocument "Employment Contract - Confidential"
                         (longer_path (files world_A)
                            "documents/employment_contract.pdf"))
                ++ "_redacted.pdf" |}
    | None => Raise PdfReadError
    end.
Proof.
  apply (seeded_document_downloads no_str_float one_file_reader
           contents_writer counting_build longer_path key_above
           plain_style plain_style world_A 1%Z).
  - exact world_A_redactions_have_documents.
  - exact longer_path_available.
  - by vm_compute.
Defined.

Lemma one_more_redaction_one_more_annotation_witness :
  burn no_str_float [page_792] ([] ++ [redaction_A]) =
  Ok (<[ 0%nat := append_annotation page_792
                    (black_square (rect64 100 572 250 592)) ]> [page_792]).
Proof.
  apply (one_more_redaction_one_more_annotation no_str_float
           [page_792] [] redaction_A 0%nat page_792
           (black_square (rect64 100 572 250 592)) [page_792] page_792);
    by vm_compute.
Defined.
